(** * note-outline-api: the outline endpoint of [server.js]

    The source file holds two revisions of the server.  The first
    (lines 1-214) serves [GET] and [POST /note_top_outline] through the
    shared handler [handleNoteTopOutline]; it is embedded in [Module Server].
    The second (lines 215-356) is the earlier, POST-only server; it is
    embedded in [Module ServerPostOnly].  Everything the two share (strings,
    numbers, JSON values, the effect monad) comes first. *)

From Stdlib Require Import List NArith ZArith QArith Qround Bool Lia String Ascii Sorted.
Import ListNotations.
Close Scope Q_scope.

Set Implicit Arguments.

(** ** JavaScript strings

    A JS string is a sequence of UTF-16 code units; [length], [slice],
    [startsWith] and [includes] all count code units. *)

Definition jsstring := list N.

Definition lit (s : string) : jsstring :=
  map N_of_ascii (list_ascii_of_string s).

(** [a === b] on strings. *)
Fixpoint jsstring_eqb (a b : jsstring) : bool :=
  match a, b with
  | [], [] => true
  | c :: a', d :: b' => (c =? d)%N && jsstring_eqb a' b'
  | _, _ => false
  end.

(** [!s] for a string [s]. *)
Definition is_empty (s : jsstring) : bool :=
  match s with [] => true | _ :: _ => false end.

(** The code units matched by the regular expression class [\s], which are
    also the ones [String.prototype.trim] strips (WhiteSpace and
    LineTerminator of ECMA-262). *)
Definition is_ws (c : N) : bool :=
  ((9 <=? c) && (c <=? 13) || (c =? 32) || (c =? 160) || (c =? 5760)
   || (8192 <=? c) && (c <=? 8202) || (c =? 8232) || (c =? 8233)
   || (c =? 8239) || (c =? 8287) || (c =? 12288) || (c =? 65279))%N.

Fixpoint trimStart (s : jsstring) : jsstring :=
  match s with
  | [] => []
  | c :: t => if is_ws c then trimStart t else s
  end.

Fixpoint trimEnd (s : jsstring) : jsstring :=
  match s with
  | [] => []
  | c :: t =>
      match trimEnd t with
      | [] => if is_ws c then [] else [c]
      | t' => c :: t'
      end
  end.

(** [s.trim()] *)
Definition trim (s : jsstring) : jsstring := trimEnd (trimStart s).

(** [s.replace(/\s+/g, " ")]: every maximal run of whitespace becomes one
    U+0020.  [in_run] tells that the previous unit was whitespace. *)
Fixpoint collapse_from (in_run : bool) (s : jsstring) : jsstring :=
  match s with
  | [] => []
  | c :: t =>
      if is_ws c
      then (if in_run then collapse_from true t else 32%N :: collapse_from true t)
      else c :: collapse_from false t
  end.

Definition collapse (s : jsstring) : jsstring := collapse_from false s.

(** [s.startsWith(p)] *)
Fixpoint startsWith (s p : jsstring) {struct p} : bool :=
  match p, s with
  | [], _ => true
  | _ :: _, [] => false
  | c :: p', d :: s' => (c =? d)%N && startsWith s' p'
  end.

(** [s.includes(p)] *)
Fixpoint includes (s p : jsstring) : bool :=
  startsWith s p || match s with [] => false | _ :: t => includes t p end.

(** [s.slice(0, n)] and [s.slice(n)] for a literal [n >= 0]. *)
Definition slice_to (n : nat) (s : jsstring) : jsstring := firstn n s.
Definition slice_from (n : nat) (s : jsstring) : jsstring := skipn n s.

(** ** JavaScript numbers

    A Number is NaN, an infinity or a finite double.  Finite doubles are
    rationals and [Math.min], [Math.max] and the comparisons are exact on
    them, so the finite case is embedded in [Q]. *)

Inductive jsnum : Type :=
| NaN
| PInf
| NInf
| Fin (q : Q).

(** [Number.isFinite(x)] for a Number [x]. *)
Definition isFinite (x : jsnum) : bool :=
  match x with Fin _ => true | _ => false end.

(** [Math.max(a, b)] *)
Definition math_max (a b : jsnum) : jsnum :=
  match a, b with
  | NaN, _ | _, NaN => NaN
  | PInf, _ | _, PInf => PInf
  | NInf, x | x, NInf => x
  | Fin p, Fin q => if Qle_bool q p then Fin p else Fin q
  end.

(** [Math.min(a, b)] *)
Definition math_min (a b : jsnum) : jsnum :=
  match a, b with
  | NaN, _ | _, NaN => NaN
  | NInf, _ | _, NInf => NInf
  | PInf, x | x, PInf => x
  | Fin p, Fin q => if Qle_bool p q then Fin p else Fin q
  end.

Definition num (z : Z) : jsnum := Fin (inject_Z z).

(** ToIntegerOrInfinity of a finite number: truncation towards zero. *)
Definition truncate (q : Q) : Z := Z.quot (Qnum q) (Zpos (Qden q)).

(** [a.slice(0, e)] on an array: [e] goes through ToIntegerOrInfinity, a
    negative end counts from the back, and the result is clipped to the
    array. *)
Definition array_slice_to (A : Type) (e : jsnum) (a : list A) : list A :=
  match e with
  | NaN => []
  | NInf => []
  | PInf => a
  | Fin q =>
      let k := truncate q in
      if (k <? 0)%Z
      then firstn (Z.to_nat (Z.max (Z.of_nat (List.length a) + k) 0)) a
      else firstn (Z.to_nat k) a
  end.

(** ** JSON values

    What [JSON.parse] and the query-string parser hand to the code.  An
    object is the list of its own properties. *)

#[warnings="-register-all"]
Inductive json : Type :=
| JNull
| JBool (b : bool)
| JNum (n : jsnum)
| JStr (s : jsstring)
| JArr (items : list json)
| JObj (props : list (string * json)).

Fixpoint lookup (k : string) (props : list (string * json)) : option json :=
  match props with
  | [] => None
  | (k', v) :: rest => if String.eqb k k' then Some v else lookup k rest
  end.

(** [v?.k] read as a JSON value: [None] is [undefined].  Only plain objects
    carry the properties the code reads ([link], [title],
    [organic_results]); on [null], numbers, booleans, strings and arrays they
    are [undefined] (or, for ["abc".link], a function: not a string
    either). *)
Definition opt_prop (k : string) (v : json) : option json :=
  match v with
  | JObj props => lookup k props
  | _ => None
  end.

(** Truthiness of a value that may be [undefined]. *)
Definition truthy (v : option json) : bool :=
  match v with
  | None => false
  | Some JNull => false
  | Some (JBool b) => b
  | Some (JNum NaN) => false
  | Some (JNum (Fin q)) => negb (Qeq_bool q 0)
  | Some (JNum _) => true
  | Some (JStr s) => negb (is_empty s)
  | Some (JArr _) => true
  | Some (JObj _) => true
  end.

(** ** Parsed pages

    What the selectors [$("title")], [$("h1")], [$("h2")] and [$("h3")] range
    over: the elements of the parsed page in document order, each with its
    tag name and the string [.text()] returns for it. *)

Definition document := list (string * jsstring).

Definition select (tag : string) (d : document) : list jsstring :=
  map snd (filter (fun e => String.eqb (fst e) tag) d).

(** [$(sel).first().text()]: the empty string when nothing matches. *)
Definition first_text (matched : list jsstring) : jsstring :=
  match matched with
  | [] => []
  | t :: _ => t
  end.

(** The [each] loop of both revisions:
    [t = $(el).text().replace(/\s+/g, " ").trim(); if (t) h.push(t)]. *)
Definition push_heading (h : list jsstring) (el_text : jsstring) : list jsstring :=
  let t := trim (collapse el_text) in
  if is_empty t then h else h ++ [t].

Definition each_heading (matched : list jsstring) : list jsstring :=
  fold_left push_heading matched [].

Record PageExtract : Type := {
  page_title : jsstring;
  h1 : jsstring;
  h2 : list jsstring;
  h3 : list jsstring
}.

Definition empty_extract : PageExtract :=
  {| page_title := []; h1 := []; h2 := []; h3 := [] |}.

(** ** Dates

    A time value is a number of milliseconds since 1970-01-01T00:00:00Z, at
    most 8.64e15 in absolute value (ECMA-262, Time Values and Time Range).
    [toISOString] prints it as [YYYY-MM-DDTHH:mm:ss.sssZ] in the proleptic
    Gregorian calendar, with a sign and six digits for a year outside
    0..9999. *)

Definition in_time_range (t : Z) : bool := (Z.abs t <=? 8640000000000000)%Z.

Record civil_time : Type := {
  year : Z;
  month : Z;
  day : Z;
  hour : Z;
  minute : Z;
  second : Z;
  millisecond : Z
}.

(** Year within its 400-year era, month and day of the day number [doe]
    within the era; eras start on 1 March, so January and February belong to
    the next year. *)
Definition civil_of_doe (doe : Z) : Z * Z * Z :=
  let yoe := ((doe - doe / 1460 + doe / 36524 - doe / 146096) / 365)%Z in
  let doy := (doe - (365 * yoe + yoe / 4 - yoe / 100))%Z in
  let mp := ((5 * doy + 2) / 153)%Z in
  let d := (doy - (153 * mp + 2) / 5 + 1)%Z in
  let m := if (mp <? 10)%Z then (mp + 3)%Z else (mp - 9)%Z in
  ((if (m <=? 2)%Z then yoe + 1 else yoe)%Z, m, d).

(** Year, month and day of the day number [z] counted from 1970-01-01. *)
Definition civil_from_days (z : Z) : Z * Z * Z :=
  let era := ((z + 719468) / 146097)%Z in
  let doe := ((z + 719468) - era * 146097)%Z in
  let '(y, m, d) := civil_of_doe doe in
  ((y + era * 400)%Z, m, d).

Definition civil_of_time (t : Z) : civil_time :=
  let '(y, m, d) := civil_from_days (t / 86400000) in
  let ms := (t mod 86400000)%Z in
  {| year := y; month := m; day := d;
     hour := (ms / 3600000)%Z;
     minute := ((ms / 60000) mod 60)%Z;
     second := ((ms / 1000) mod 60)%Z;
     millisecond := (ms mod 1000)%Z |}.

(** The decimal digit of [n] at the units. *)
Definition digit (n : Z) : N := Z.to_N (48 + n mod 10).

Definition pad2 (n : Z) : jsstring := [digit (n / 10); digit n].
Definition pad3 (n : Z) : jsstring := [digit (n / 100); digit (n / 10); digit n].
Definition pad4 (n : Z) : jsstring :=
  [digit (n / 1000); digit (n / 100); digit (n / 10); digit n].
Definition pad6 (n : Z) : jsstring :=
  [digit (n / 100000); digit (n / 10000); digit (n / 1000);
   digit (n / 100); digit (n / 10); digit n].

Definition year_string (y : Z) : jsstring :=
  if ((0 <=? y) && (y <=? 9999))%Z then pad4 y
  else (if (y <? 0)%Z then 45%N else 43%N) :: pad6 (Z.abs y).

Definition render (c : civil_time) : jsstring :=
  year_string (year c) ++ [45%N] ++ pad2 (month c) ++ [45%N] ++ pad2 (day c)
  ++ [84%N] ++ pad2 (hour c) ++ [58%N] ++ pad2 (minute c) ++ [58%N]
  ++ pad2 (second c) ++ [46%N] ++ pad3 (millisecond c) ++ [90%N].

(** [d.toISOString()] for a date [d] with time value [t]. *)
Definition toISOString (t : Z) : jsstring := render (civil_of_time t).

(** Reading a timestamp back. *)

Definition is_leap (y : Z) : bool :=
  ((y mod 4 =? 0) && (negb (y mod 100 =? 0) || (y mod 400 =? 0)))%Z.

Definition days_in_month (y m : Z) : Z :=
  if (m =? 2)%Z then (if is_leap y then 29 else 28)%Z
  else if ((m =? 4) || (m =? 6) || (m =? 9) || (m =? 11))%Z then 30%Z
  else 31%Z.

(** A date and time of day that exist. *)
Definition well_formed (c : civil_time) : bool :=
  ((-999999 <=? year c) && (year c <=? 999999)
   && (1 <=? month c) && (month c <=? 12)
   && (1 <=? day c) && (day c <=? days_in_month (year c) (month c))
   && (0 <=? hour c) && (hour c <=? 23)
   && (0 <=? minute c) && (minute c <=? 59)
   && (0 <=? second c) && (second c <=? 59)
   && (0 <=? millisecond c) && (millisecond c <=? 999))%Z.

Definition digit_value (c : N) : option Z :=
  if ((48 <=? c) && (c <=? 57))%N then Some (Z.of_N c - 48)%Z else None.

Fixpoint number_from (acc : Z) (cs : jsstring) : option Z :=
  match cs with
  | [] => Some acc
  | c :: t =>
      match digit_value c with
      | Some d => number_from (10 * acc + d)%Z t
      | None => None
      end
  end.

Definition signed_year (cs : jsstring) : option Z :=
  match cs with
  | sign :: digits =>
      match number_from 0 digits with
      | Some y =>
          if (sign =? 43)%N then Some y
          else if (sign =? 45)%N then Some (- y)%Z
          else None
      | None => None
      end
  | [] => None
  end.

Definition parse_fields (y : option Z) (rest : jsstring) : option civil_time :=
  match y, rest with
  | Some y, [c1; m1; m2; c2; d1; d2; c3; h1; h2; c4; i1; i2; c5; s1; s2; c6; f1; f2; f3; c7] =>
      if ((c1 =? 45) && (c2 =? 45) && (c3 =? 84) && (c4 =? 58) && (c5 =? 58)
          && (c6 =? 46) && (c7 =? 90))%N
      then
        match number_from 0 [m1; m2], number_from 0 [d1; d2], number_from 0 [h1; h2],
              number_from 0 [i1; i2], number_from 0 [s1; s2], number_from 0 [f1; f2; f3] with
        | Some m, Some d, Some h, Some i, Some s, Some f =>
            let c := {| year := y; month := m; day := d; hour := h; minute := i;
                        second := s; millisecond := f |} in
            if well_formed c then Some c else None
        | _, _, _, _, _, _ => None
        end
      else None
  | _, _ => None
  end.

(** The date and time a string denotes when it is an ISO-8601 timestamp in
    UTC of the shape [toISOString] prints: [YYYY-MM-DDTHH:mm:ss.sssZ] or
    [±YYYYYY-MM-DDTHH:mm:ss.sssZ], naming a date and a time of day that
    exist. *)
Definition parse_iso8601 (s : jsstring) : option civil_time :=
  if Nat.eqb (List.length s) 24
  then parse_fields (number_from 0 (firstn 4 s)) (skipn 4 s)
  else if Nat.eqb (List.length s) 27
  then parse_fields (signed_year (firstn 7 s)) (skipn 7 s)
  else None.

(** The day number, counted from 1970-01-01, of a civil date. *)
Definition days_from_civil (y m d : Z) : Z :=
  let y' := (if (m <=? 2)%Z then y - 1 else y)%Z in
  let era := (y' / 400)%Z in
  let yoe := (y' - era * 400)%Z in
  let mp := (if (m <=? 2)%Z then m + 9 else m - 3)%Z in
  let doy := ((153 * mp + 2) / 5 + d - 1)%Z in
  let doe := (yoe * 365 + yoe / 4 - yoe / 100 + doy)%Z in
  (era * 146097 + doe - 719468)%Z.

(** The time value of a civil date and time. *)
Definition time_of_civil (c : civil_time) : Z :=
  (days_from_civil (year c) (month c) (day c) * 86400000
   + hour c * 3600000 + minute c * 60000 + second c * 1000 + millisecond c)%Z.

(** The instant an ISO-8601 timestamp denotes. *)
Definition instant_of (s : jsstring) : option Z :=
  match parse_iso8601 s with
  | Some c => Some (time_of_civil c)
  | None => None
  end.

(** [f] holds of the [n] numbers from [z] on. *)
Fixpoint all_from (n : nat) (z : Z) (f : Z -> bool) : bool :=
  match n with
  | 0 => true
  | S k => f z && all_from k (z + 1)%Z f
  end.

(** What is needed of one day of an era: its date exists, and the day number
    is found back from the date. *)
Definition doe_ok (doe : Z) : bool :=
  let '(y, m, d) := civil_of_doe doe in
  ((0 <=? y) && (y <=? 400) && (1 <=? m) && (m <=? 12) && (1 <=? d)
   && (d <=? days_in_month y m)
   && (days_from_civil y m d =? doe - 719468))%Z.

(** ** Requests, responses and the outside world *)

(** [process.env]: a variable is unset or a string. *)
Record Env : Type := {
  env_SERPAPI_KEY : option jsstring;
  env_API_TOKEN : option jsstring
}.

(** [x || ""] for [x] a string or [undefined]. *)
Definition or_empty (x : option jsstring) : jsstring :=
  match x with
  | Some s => s
  | None => []
  end.

Record Request : Type := {
  headers_authorization : option jsstring;
  query_q : option json;
  query_num : option json;
  body_query : option json;
  body_num : option json
}.

(** The parameters set on the search URL. *)
Record SerpParams : Type := {
  sp_engine : jsstring;
  sp_q : jsstring;
  sp_hl : jsstring;
  sp_gl : jsstring;
  sp_num : jsnum;
  sp_api_key : jsstring
}.

Inductive Target : Type :=
| SearchApi (params : SerpParams)
| Page (url : jsstring).

(** A computation returns a value or throws; of the thrown value only the
    string [String(e?.message || e)] is kept. *)
Inductive Res (A : Type) : Type :=
| Val (a : A)
| Exn (message : jsstring).
Arguments Exn {A} message.

Record HttpResponse : Type := {
  http_status : N;
  http_body : Res jsstring
}.

(** [resp.ok] *)
Definition ok (r : HttpResponse) : bool :=
  ((200 <=? http_status r) && (http_status r <=? 299))%N.

(** The [k]-th network call of a request either rejects (network error,
    abort after the timeout) or resolves to a response whose body can later
    be read or fail to be read.  The [k]-th reading of the system clock is a
    time value. *)
Record World : Type := {
  net : nat -> Target -> option N -> Res HttpResponse;
  json_parse : jsstring -> Res json;
  cheerio_load : jsstring -> Res document;
  date_now : nat -> Z;
  date_in_range : forall k, in_time_range (date_now k) = true;
  number_to_string : jsnum -> jsstring;
  string_to_number : jsstring -> jsnum;
  object_to_string : json -> Res jsstring;
  object_to_number : json -> Res jsnum
}.

(** [String(v)] and [Number(v)].  A primitive always converts; how a number
    is printed and how a string is read as a number is the runtime's.  An
    object or an array goes through ToPrimitive, which calls its [toString]
    and [valueOf] and throws a TypeError when neither gives a primitive (as
    for [{toString: 1}]). *)
Definition js_String (w : World) (v : json) : Res jsstring :=
  match v with
  | JStr s => Val s
  | JNull => Val (lit "null")
  | JBool true => Val (lit "true")
  | JBool false => Val (lit "false")
  | JNum n => Val (number_to_string w n)
  | JArr _ => object_to_string w v
  | JObj _ => object_to_string w v
  end.

Definition js_Number (w : World) (v : json) : Res jsnum :=
  match v with
  | JNum n => Val n
  | JNull => Val (num 0)
  | JBool true => Val (num 1)
  | JBool false => Val (num 0)
  | JStr s => Val (string_to_number w s)
  | JArr _ => object_to_number w v
  | JObj _ => object_to_number w v
  end.

(** [String(v || "").trim()] and [Number(v || 10)], as both revisions
    read the query and the count off a request. *)
Definition string_or_empty_trimmed (w : World) (v : option json) : Res jsstring :=
  match v with
  | Some x =>
      if truthy v
      then match js_String w x with
           | Val s => Val (trim s)
           | Exn e => Exn e
           end
      else Val (trim [])
  | None => Val (trim [])
  end.

Definition number_or_ten (w : World) (v : option json) : Res jsnum :=
  match v with
  | Some x => if truthy v then js_Number w x else Val (num 10)
  | None => Val (num 10)
  end.

Inductive Event : Type :=
| Fetched (target : Target) (timeoutMs : option N)
| Slept (ms : N).

Record St : Type := {
  log : list Event;
  fetches : nat;
  reads : nat
}.

Definition st0 : St := {| log := []; fetches := 0; reads := 0 |}.

(** The effect monad of the handlers: the log of network calls and sleeps
    and the two counters are threaded, and a computation returns or throws. *)
Definition M (A : Type) : Type := St -> Res A * St.

Definition ret (A : Type) (a : A) : M A := fun s => (Val a, s).

Definition throw (A : Type) (message : jsstring) : M A :=
  fun s => (Exn message, s).

Definition bind (A B : Type) (m : M A) (k : A -> M B) : M B :=
  fun s =>
    match m s with
    | (Val a, s') => k a s'
    | (Exn e, s') => (Exn e, s')
    end.

(** [try { m } catch (e) { h e }] and [p.catch(h)]. *)
Definition try_catch (A : Type) (m : M A) (h : jsstring -> M A) : M A :=
  fun s =>
    match m s with
    | (Val a, s') => (Val a, s')
    | (Exn e, s') => h e s'
    end.

Definition lift (A : Type) (r : Res A) : M A := fun s => (r, s).

Declare Scope js_scope.
Delimit Scope js_scope with js.
Notation "x <- m ;; k" := (bind m (fun x => k))
  (at level 61, m at next level, right associativity) : js_scope.
Notation "m ;;; k" := (bind m (fun _ => k))
  (at level 61, right associativity) : js_scope.
Open Scope js_scope.

(** [fetch(target, { signal })]: logged, answered by the world. *)
Definition after_fetch (s : St) (t : Target) (timeoutMs : option N) : St :=
  {| log := log s ++ [Fetched t timeoutMs];
     fetches := S (fetches s);
     reads := reads s |}.

Definition fetch (w : World) (t : Target) (timeoutMs : option N) : M HttpResponse :=
  fun s => (net w (fetches s) t timeoutMs, after_fetch s t timeoutMs).

(** [resp.text()] *)
Definition text (r : HttpResponse) : M jsstring := lift (http_body r).

(** [resp.json()] *)
Definition json_of (w : World) (r : HttpResponse) : M json :=
  b <- text r ;; lift (json_parse w b).

(** [sleep(ms)] *)
Definition after_sleep (s : St) (ms : N) : St :=
  {| log := log s ++ [Slept ms]; fetches := fetches s; reads := reads s |}.

Definition sleep (ms : N) : M unit := fun s => (Val tt, after_sleep s ms).

Definition after_read (s : St) : St :=
  {| log := log s; fetches := fetches s; reads := S (reads s) |}.

(** [new Date().toISOString()]: the system clock is read and the reading
    printed. *)
Definition now_iso (w : World) : M jsstring :=
  fun s => (Val (toISOString (date_now w (reads s))), after_read s).

Record SearchResult (T : Type) : Type := {
  rank : nat;
  url : jsstring;
  serp_title : T
}.

Record OutlineRecord (T : Type) : Type := {
  item : SearchResult T;
  extracted : PageExtract;
  fetched_at : jsstring
}.

Inductive Body (T : Type) : Type :=
| ErrorBody (error : jsstring) (upstream_status : option N) (detail : option jsstring)
| NoResults (query : jsstring) (note : jsstring)
| Outline (query : jsstring) (results : list (OutlineRecord T)).
Arguments ErrorBody {T} error upstream_status detail.
Arguments NoResults {T} query note.

Record Response (T : Type) : Type := {
  status : N;
  body : Body T
}.

(** What [requireAuth] did: returned [true], or sent a response and
    returned [false]. *)
Inductive AuthResult (T : Type) : Type :=
| Authorized
| Rejected (sent : Response T).
Arguments Authorized {T}.

(** [arr.map((r, i) => f r i)] *)
Fixpoint map_index (A B : Type) (f : A -> nat -> B) (i : nat) (a : list A) : list B :=
  match a with
  | [] => []
  | r :: rest => f r i :: map_index f (S i) rest
  end.

(** [typeof v === "string"] *)
Definition as_string (v : option json) : option jsstring :=
  match v with
  | Some (JStr s) => Some s
  | _ => None
  end.

(** [typeof r?.link === "string" && r.link.includes("note.com/")] *)
Definition is_note_link (r : json) : bool :=
  match as_string (opt_prop "link" r) with
  | Some link => includes link (lit "note.com/")
  | None => false
  end.

(** [serpJson.organic_results] read off the parsed body: reading a property
    of [null] throws, and anything but an array counts as no results. *)
Definition organic_results (serpJson : json) : Res (list json) :=
  match serpJson with
  | JNull => Exn (lit "Cannot read properties of null (reading 'organic_results')")
  | _ =>
      match opt_prop "organic_results" serpJson with
      | Some (JArr organic) => Val organic
      | _ => Val []
      end
  end.

Definition serp_params (serpQuery : jsstring) (n : jsnum) (key : jsstring) : SerpParams :=
  {| sp_engine := lit "google"; sp_q := serpQuery; sp_hl := lit "ja";
     sp_gl := lit "jp"; sp_num := n; sp_api_key := key |}.

(** ** The server of lines 1-214: [GET] and [POST] through one handler *)

Module Server.

Section Handler.

Variable env : Env.
Variable w : World.

Definition SERPAPI_KEY : jsstring := or_empty (env_SERPAPI_KEY env).
Definition API_TOKEN : jsstring := or_empty (env_API_TOKEN env).

Definition Resp := Response jsstring.

Definition unauthorized : Resp :=
  {| status := 401; body := ErrorBody (lit "Unauthorized") None None |}.

(** The token [requireAuth] reads off the header. *)
Definition bearer_token (req : Request) : jsstring :=
  let auth := or_empty (headers_authorization req) in
  if startsWith auth (lit "Bearer ") then trim (slice_from 7 auth) else [].

Definition requireAuth (req : Request) : AuthResult jsstring :=
  if is_empty API_TOKEN then Authorized
  else
    let token := bearer_token req in
    if negb (jsstring_eqb token API_TOKEN)
    then Rejected unauthorized
    else Authorized.

(** [fetchWithTimeout(url, options, timeoutMs)]: the abort shows as a
    rejected fetch, and [finally] only clears the timer. *)
Definition fetchWithTimeout (t : Target) (timeoutMs : N) : M HttpResponse :=
  fetch w t (Some timeoutMs).

(** Line 91. *)
Definition clamp (numRaw : jsnum) : jsnum :=
  math_min (math_max (if isFinite numRaw then numRaw else num 10) (num 1)) (num 10).

(** Lines 119-126. *)
Definition top_of (n : jsnum) (organic : list json) : list (SearchResult jsstring) :=
  map_index
    (fun r i =>
       {| rank := i + 1;
          url := or_empty (as_string (opt_prop "link" r));
          serp_title := or_empty (as_string (opt_prop "title" r)) |})
    0
    (array_slice_to n (filter is_note_link organic)).

(** The page parsed by [cheerio.load], lines 184-205. *)
Definition extract (doc : document) : PageExtract :=
  let page_title := trim (first_text (select "title" doc)) in
  let h1 := trim (collapse (first_text (select "h1" doc))) in
  let h2 := each_heading (select "h2" doc) in
  let h3 := each_heading (select "h3" doc) in
  {| page_title := slice_to 200 page_title;
     h1 := slice_to 200 h1;
     h2 := map (slice_to 200) (firstn 20 h2);
     h3 := map (slice_to 200) (firstn 40 h3) |}.

Definition extractHeadings (page_url : jsstring) : M PageExtract :=
  try_catch
    (resp <- fetchWithTimeout (Page page_url) 20000 ;;
     if negb (ok resp) then ret empty_extract
     else
       html <- text resp ;;
       doc <- lift (cheerio_load w html) ;;
       ret (extract doc))
    (fun _ => ret empty_extract).

(** The loop of lines 137-151, [results] being the array built so far. *)
Fixpoint extract_each (top : list (SearchResult jsstring))
    (results : list (OutlineRecord jsstring)) : M (list (OutlineRecord jsstring)) :=
  match top with
  | [] => ret results
  | it :: rest =>
      ex <- extractHeadings (url it) ;;
      stamp <- now_iso w ;;
      let results' := results ++ [{| item := it; extracted := ex; fetched_at := stamp |}] in
      sleep 500 ;;;
      extract_each rest results'
  end.

Definition handleNoteTopOutline (req : Request) (query : jsstring) (numRaw : jsnum)
    : M Resp :=
  try_catch
    (match requireAuth req with
     | Rejected sent => ret sent
     | Authorized =>
         if is_empty SERPAPI_KEY
         then ret {| status := 500;
                     body := ErrorBody (lit "SERPAPI_KEY is missing") None None |}
         else
           let n := clamp numRaw in
           if is_empty query
           then ret {| status := 400;
                       body := ErrorBody (lit "query is required") None None |}
           else
             let serpQuery := query ++ lit " site:note.com" in
             serpResp <- fetchWithTimeout
                           (SearchApi (serp_params serpQuery n SERPAPI_KEY)) 20000 ;;
             if negb (ok serpResp)
             then
               txt <- try_catch (text serpResp) (fun _ => ret []) ;;
               ret {| status := 502;
                      body := ErrorBody (lit "SERP API failed")
                                (Some (http_status serpResp))
                                (Some (slice_to 800 txt)) |}
             else
               serpJson <- try_catch (json_of w serpResp) (fun _ => ret (JObj [])) ;;
               organic <- lift (organic_results serpJson) ;;
               let top := top_of n organic in
               if Nat.eqb (List.length top) 0
               then ret {| status := 200;
                           body := NoResults serpQuery
                                     (lit "No note.com results found in top organic results.") |}
               else
                 results <- extract_each top [] ;;
                 ret {| status := 200; body := Outline serpQuery results |}
     end)
    (fun e => ret {| status := 500;
                     body := ErrorBody (lit "Internal error") None (Some e) |}).

(** [String(v || "").trim()] and [Number(v || 10)] of the two routes. *)
Definition query_of (v : option json) : Res jsstring := string_or_empty_trimmed w v.

Definition num_of (v : option json) : Res jsnum := number_or_ten w v.

(** [app.get("/note_top_outline", ...)].  The two conversions run before the
    handler and outside its [try]: when one of them throws, the route
    function throws (its promise rejects) and the handler is never entered. *)
Definition get_note_top_outline (req : Request) : M Resp :=
  query <- lift (query_of (query_q req)) ;;
  numRaw <- lift (num_of (query_num req)) ;;
  handleNoteTopOutline req query numRaw.

(** [app.post("/note_top_outline", ...)] *)
Definition post_note_top_outline (req : Request) : M Resp :=
  query <- lift (query_of (body_query req)) ;;
  numRaw <- lift (num_of (body_num req)) ;;
  handleNoteTopOutline req query numRaw.

End Handler.

End Server.

(** ** The server of lines 215-356: [POST] only *)

Module ServerPostOnly.

Section Handler.

Variable env : Env.
Variable w : World.

(** Here the two variables are read without a default. *)
Definition SERPAPI_KEY : option jsstring := env_SERPAPI_KEY env.
Definition API_TOKEN : option jsstring := env_API_TOKEN env.

(** [!x] for [x] a string or [undefined]. *)
Definition unset (x : option jsstring) : bool := is_empty (or_empty x).

Definition Resp := Response json.

Definition unauthorized : Resp :=
  {| status := 401; body := ErrorBody (lit "Unauthorized") None None |}.

Definition bearer_token (req : Request) : jsstring :=
  let auth := or_empty (headers_authorization req) in
  if startsWith auth (lit "Bearer ") then slice_from 7 auth else [].

Definition requireAuth (req : Request) : AuthResult json :=
  let token := bearer_token req in
  if unset API_TOKEN then Authorized
  else if negb (jsstring_eqb token (or_empty API_TOKEN))
       then Rejected unauthorized
       else Authorized.

(** Line 254, on the value of [Number(req.body?.num || 10)]. *)
Definition clamp (numRaw : jsnum) : jsnum :=
  math_min (math_max numRaw (num 1)) (num 10).

(** Lines 278-285; [r.title || ""] keeps any truthy title. *)
Definition top_of (n : jsnum) (organic : list json) : list (SearchResult json) :=
  map_index
    (fun r i =>
       {| rank := i + 1;
          url := or_empty (as_string (opt_prop "link" r));
          serp_title :=
            match opt_prop "title" r with
            | Some t => if truthy (Some t) then t else JStr []
            | None => JStr []
            end |})
    0
    (array_slice_to n (filter is_note_link organic)).

(** Lines 326-347. *)
Definition extract (doc : document) : PageExtract :=
  let page_title := trim (first_text (select "title" doc)) in
  let h1 := trim (first_text (select "h1" doc)) in
  let h2 := each_heading (select "h2" doc) in
  let h3 := each_heading (select "h3" doc) in
  {| page_title := slice_to 200 page_title;
     h1 := slice_to 200 h1;
     h2 := map (slice_to 200) (firstn 20 h2);
     h3 := map (slice_to 200) (firstn 40 h3) |}.

Definition extractHeadings (page_url : jsstring) : M PageExtract :=
  resp <- fetch w (Page page_url) None ;;
  if negb (ok resp) then ret empty_extract
  else
    html <- text resp ;;
    doc <- lift (cheerio_load w html) ;;
    ret (extract doc).

(** The loop of lines 288-303. *)
Fixpoint extract_each (top : list (SearchResult json))
    (results : list (OutlineRecord json)) : M (list (OutlineRecord json)) :=
  match top with
  | [] => ret results
  | it :: rest =>
      ex <- extractHeadings (url it) ;;
      stamp <- now_iso w ;;
      let results' := results ++ [{| item := it; extracted := ex; fetched_at := stamp |}] in
      sleep 500 ;;;
      extract_each rest results'
  end.

(** Lines 253-254, before the clamp. *)
Definition query_of (v : option json) : Res jsstring := string_or_empty_trimmed w v.

Definition num_of (v : option json) : Res jsnum := number_or_ten w v.

(** [app.post("/note_top_outline", ...)].  Here the two conversions run
    inside the [try], after the key check and before the query check. *)
Definition post_note_top_outline (req : Request) : M Resp :=
  try_catch
    (match requireAuth req with
     | Rejected sent => ret sent
     | Authorized =>
         if unset SERPAPI_KEY
         then ret {| status := 500;
                     body := ErrorBody (lit "SERPAPI_KEY is missing") None None |}
         else
           query <- lift (query_of (body_query req)) ;;
           numRaw <- lift (num_of (body_num req)) ;;
           let n := clamp numRaw in
           if is_empty query
           then ret {| status := 400;
                       body := ErrorBody (lit "query is required") None None |}
           else
             let serpQuery := query ++ lit " site:note.com" in
             serpResp <- fetch w
                           (SearchApi (serp_params serpQuery n (or_empty SERPAPI_KEY)))
                           None ;;
             if negb (ok serpResp)
             then
               txt <- text serpResp ;;
               ret {| status := 502;
                      body := ErrorBody (lit "SERP API failed") None
                                (Some (slice_to 500 txt)) |}
             else
               serpJson <- json_of w serpResp ;;
               organic <- lift (organic_results serpJson) ;;
               let top := top_of n organic in
               results <- extract_each top [] ;;
               ret {| status := 200; body := Outline serpQuery results |}
     end)
    (fun e => ret {| status := 500;
                     body := ErrorBody (lit "Internal error") None (Some e) |}).

End Handler.

End ServerPostOnly.

(** ** Sample inputs *)

Definition entry (link title : string) : json :=
  JObj [("title"%string, JStr (lit title)); ("link"%string, JStr (lit link))].

(** Five organic results, three of them on note.com; one entry has no link
    and one links elsewhere. *)
Definition sample_organic : list json :=
  [ entry "https://note.com/a/n/n1" "first";
    JObj [("title"%string, JStr (lit "no link"))];
    entry "https://note.com/b/n/n2" "second";
    entry "https://example.com/post" "elsewhere";
    entry "https://note.com/c/n/n3" "third" ].

(** A page whose title holds a run of two spaces and a line break inside,
    and whose second [h2] is blank. *)
Definition sample_doc : document :=
  [ ("title"%string, lit " My  note" ++ [10%N] ++ lit "page ");
    ("h1"%string, lit "  Big   heading ");
    ("h2"%string, lit " first  part ");
    ("h2"%string, lit "   ");
    ("h3"%string, lit "detail") ].

Definition sample_env : Env :=
  {| env_SERPAPI_KEY := Some (lit "key"); env_API_TOKEN := None |}.

Definition sample_request : Request :=
  {| headers_authorization := None;
     query_q := Some (JStr (lit "productivity tips"));
     query_num := Some (JNum (num 3));
     body_query := Some (JStr (lit "productivity tips"));
     body_num := Some (JNum (num 3)) |}.

Definition page_ok : HttpResponse :=
  {| http_status := 200; http_body := Val (lit "<html>") |}.

(** A clock that advances 600 ms from one reading to the next (and stands
    still after a thousand readings). *)
Definition sample_clock (k : nat) : Z :=
  (1700000000000 + 600 * Z.of_nat (Nat.min k 1000))%Z.

Definition sample_clock_in_range (k : nat) : in_time_range (sample_clock k) = true.
Proof. unfold in_time_range, sample_clock. apply Z.leb_le. lia. Qed.

(** The search answers with [organic]; the page of the first sample link
    cannot be fetched, every other page parses to [sample_doc]. *)
Definition world_with (organic : list json) : World :=
  {| net := fun _ t _ =>
              match t with
              | SearchApi _ => Val {| http_status := 200; http_body := Val (lit "{}") |}
              | Page u =>
                  if jsstring_eqb u (lit "https://note.com/a/n/n1")
                  then Exn (lit "fetch failed")
                  else Val page_ok
              end;
     json_parse := fun _ => Val (JObj [("organic_results"%string, JArr organic)]);
     cheerio_load := fun _ => Val sample_doc;
     date_now := sample_clock;
     date_in_range := sample_clock_in_range;
     number_to_string := fun _ => lit "0";
     string_to_number := fun _ => NaN;
     object_to_string := fun _ => Val (lit "[object Object]");
     object_to_number := fun _ => Val NaN |}.

Definition sample_world : World := world_with sample_organic.

(** A system clock that is set back one second between two readings. *)
Definition backward_clock (k : nat) : Z :=
  (1700000000000 - 1000 * Z.of_nat (Nat.min k 1000))%Z.

Definition backward_clock_in_range (k : nat) : in_time_range (backward_clock k) = true.
Proof. unfold in_time_range, backward_clock. apply Z.leb_le. lia. Qed.

Definition backward_world : World :=
  {| net := net sample_world;
     json_parse := json_parse sample_world;
     cheerio_load := cheerio_load sample_world;
     date_now := backward_clock;
     date_in_range := backward_clock_in_range;
     number_to_string := number_to_string sample_world;
     string_to_number := string_to_number sample_world;
     object_to_string := object_to_string sample_world;
     object_to_number := object_to_number sample_world |}.

(** A search whose only result is not on note.com. *)
Definition elsewhere_world : World :=
  world_with [entry "https://example.com/post" "elsewhere"].

(** A world in which an object has no primitive conversion, as
    [{toString: 1}] in JavaScript. *)
Definition strict_world : World :=
  {| net := net sample_world;
     json_parse := json_parse sample_world;
     cheerio_load := cheerio_load sample_world;
     date_now := sample_clock;
     date_in_range := sample_clock_in_range;
     number_to_string := number_to_string sample_world;
     string_to_number := string_to_number sample_world;
     object_to_string :=
       fun _ => Exn (lit "Cannot convert object to primitive value");
     object_to_number :=
       fun _ => Exn (lit "Cannot convert object to primitive value") |}.

Definition odd_num_request : Request :=
  {| headers_authorization := None;
     query_q := Some (JStr (lit "   "));
     query_num := Some (JObj [("toString"%string, JNum (num 1))]);
     body_query := Some (JStr (lit "   "));
     body_num := Some (JObj [("toString"%string, JNum (num 1))]) |}.

Definition no_key_env : Env :=
  {| env_SERPAPI_KEY := None; env_API_TOKEN := None |}.

Definition blank_request : Request :=
  {| headers_authorization := None;
     query_q := Some (JStr (lit "   "));
     query_num := None;
     body_query := Some (JStr (lit "   "));
     body_num := None |}.

Definition token_env : Env :=
  {| env_SERPAPI_KEY := Some (lit "key"); env_API_TOKEN := Some (lit "s3cret") |}.



(** ** Vocabulary of the statements *)

(** [a < b] on Numbers. *)
Definition js_lt (a b : jsnum) : bool :=
  match a, b with
  | NaN, _ | _, NaN => false
  | _, NInf => false
  | NInf, _ => true
  | PInf, _ => false
  | Fin _, PInf => true
  | Fin p, Fin q => negb (Qle_bool q p)
  end.

(** A Number in the closed interval from 1 to 10. *)
Definition within_1_10 (n : jsnum) : Prop :=
  match n with
  | Fin q => (1 <= q <= 10)%Q
  | _ => False
  end.

(** The documented caps of a [PageExtract]. *)
Definition within_caps (p : PageExtract) : Prop :=
  List.length (page_title p) <= 200
  /\ List.length (h1 p) <= 200
  /\ List.length (h2 p) <= 20
  /\ List.length (h3 p) <= 40
  /\ Forall (fun t => List.length t <= 200) (h2 p)
  /\ Forall (fun t => List.length t <= 200) (h3 p).

(** The search call of the handler of lines 83-160. *)
Definition search_target (env : Env) (query : jsstring) (numRaw : jsnum) : Target :=
  SearchApi (serp_params (query ++ lit " site:note.com") (Server.clamp numRaw)
               (Server.SERPAPI_KEY env)).

(** The value of [await serpResp.json().catch(() => ({}))]. *)
Definition json_or_empty (w : World) (resp : HttpResponse) : json :=
  match http_body resp with
  | Val b => match json_parse w b with Val j => j | Exn _ => JObj [] end
  | Exn _ => JObj []
  end.

(** What [extractHeadings] of lines 162-210 makes of the outcome of its
    fetch. *)
Definition settled (w : World) (outcome : Res HttpResponse) : PageExtract :=
  match outcome with
  | Exn _ => empty_extract
  | Val resp =>
      if ok resp
      then match http_body resp with
           | Exn _ => empty_extract
           | Val html =>
               match cheerio_load w html with
               | Exn _ => empty_extract
               | Val doc => Server.extract doc
               end
           end
      else empty_extract
  end.

(** A raw [q] or [query] parameter that is missing, empty or made of
    whitespace only. *)
Definition blank (v : option json) : Prop :=
  match v with
  | None => True
  | Some (JStr s) => forallb is_ws s = true
  | Some _ => False
  end.

(** A [num] parameter that [Number(num || 10)] converts without throwing:
    anything but an object or an array that has no primitive conversion. *)
Definition converts_to_number (w : World) (v : option json) : Prop :=
  match v with
  | Some (JArr items) => exists n, object_to_number w (JArr items) = Val n
  | Some (JObj props) => exists n, object_to_number w (JObj props) = Val n
  | _ => True
  end.

(** The headings as the specification describes them: the texts of the
    matched elements, cleaned, the empty ones dropped, then cut to [limit]
    items of at most 200 units. *)
Definition kept_headings (limit : nat) (tag : string) (doc : document) : list jsstring :=
  map (slice_to 200)
    (firstn limit
       (filter (fun t => negb (is_empty t))
          (map (fun e => trim (collapse e)) (select tag doc)))).

Definition headings_nonempty (p : PageExtract) : Prop :=
  Forall (fun t => t <> []) (h2 p) /\ Forall (fun t => t <> []) (h3 p).

(** Whitespace, as the specification speaks of it.  [single_spaced] says
    that every whitespace unit is a U+0020 that does not follow another one
    ([after_ws] tells that the unit before the string was whitespace); a
    string is [tidy] when it is single-spaced and neither starts nor ends
    with whitespace. *)
Fixpoint single_spaced (after_ws : bool) (s : jsstring) : bool :=
  match s with
  | [] => true
  | c :: t =>
      if is_ws c
      then (c =? 32)%N && negb after_ws && single_spaced true t
      else single_spaced false t
  end.

Definition starts_with_ws (s : jsstring) : bool :=
  match s with
  | [] => false
  | c :: _ => is_ws c
  end.

Fixpoint ends_with_ws (s : jsstring) : bool :=
  match s with
  | [] => false
  | c :: t =>
      match t with
      | [] => is_ws c
      | _ :: _ => ends_with_ws t
      end
  end.

Definition tidy (s : jsstring) : bool :=
  single_spaced false s && negb (starts_with_ws s) && negb (ends_with_ws s).

(** ** Vocabulary of the further properties *)

(** What the loop over [top] adds to the log: for each item a page fetch
    followed by the 500 ms sleep. *)
Definition page_events (T : Type) (timeoutMs : option N) (top : list (SearchResult T))
    : list Event :=
  flat_map (fun it => [Fetched (Page (url it)) timeoutMs; Slept 500]) top.

(** The body is an error body exactly when the status is not 200. *)
Definition error_iff_not_200 (T : Type) (r : Response T) : Prop :=
  match body r with
  | ErrorBody _ _ _ => status r <> 200%N
  | _ => status r = 200%N
  end.

(** A world whose search call settles as [search] and whose JSON parser
    answers [parsed]; pages are served as in [world_with]. *)
Definition world_of (search : Res HttpResponse) (parsed : Res json) : World :=
  {| net := fun _ t _ =>
              match t with
              | SearchApi _ => search
              | Page _ => Val page_ok
              end;
     json_parse := fun _ => parsed;
     cheerio_load := fun _ => Val sample_doc;
     date_now := sample_clock;
     date_in_range := sample_clock_in_range;
     number_to_string := fun _ => lit "0";
     string_to_number := fun _ => NaN;
     object_to_string := fun _ => Val (lit "[object Object]");
     object_to_number := fun _ => Val NaN |}.

Definition unavailable : HttpResponse :=
  {| http_status := 503; http_body := Val (lit "upstream unavailable") |}.

(** The search call of the handler of lines 245-309. *)
Definition post_only_target (env : Env) (query : jsstring) (numRaw : jsnum) : Target :=
  SearchApi
    (serp_params (query ++ lit " site:note.com") (ServerPostOnly.clamp numRaw)
       (or_empty (ServerPostOnly.SERPAPI_KEY env))).

(** The catch-all answer of both handlers. *)
Definition internal_error (T : Type) (message : jsstring) : Response T :=
  {| status := 500; body := ErrorBody (lit "Internal error") None (Some message) |}.

(** A returned heading text: single-spaced, without leading whitespace, and
    without trailing whitespace unless it was cut at 200 units. *)
Definition tidy_unless_cut (x : jsstring) : Prop :=
  single_spaced false x = true
  /\ starts_with_ws x = false
  /\ (ends_with_ws x = false \/ List.length x = 200).

(** A heading text that cleaning and cutting leave alone. *)
Definition plain_heading (t : jsstring) : Prop :=
  tidy t = true /\ t <> [] /\ List.length t <= 200.

Definition heading_tags : list string := ["title"; "h1"; "h2"; "h3"]%string.

Definition padded_token_request : Request :=
  {| headers_authorization := Some (lit "Bearer " ++ lit "  s3cret ");
     query_q := None; query_num := None; body_query := None; body_num := None |}.

Definition plain_doc : document :=
  [ ("h2"%string, lit "Getting started"); ("h3"%string, lit "Step 1");
    ("h2"%string, lit "Going further") ].

Definition blank_doc : document :=
  [ ("title"%string, lit "  "); ("h2"%string, [9%N; 10%N]); ("p"%string, lit "text") ].

Definition result_at (link : string) (k : nat) : SearchResult json :=
  {| rank := k; url := lit link; serp_title := JStr (lit "t") |}.

(** The extracts of the pages of [top] when they are fetched one after the
    other, the first of them as network call number [k]. *)
Fixpoint extracts_from (w : World) (k : nat) (top : list (SearchResult jsstring))
    : list PageExtract :=
  match top with
  | [] => []
  | it :: rest =>
      settled w (net w k (Page (url it)) (Some 20000%N)) :: extracts_from w (S k) rest
  end.

(** * Properties *)

(** ** Dates *)

Example toISOString_epoch : toISOString 0 = lit "1970-01-01T00:00:00.000Z".
Proof. vm_compute. reflexivity. Qed.

Example toISOString_2023 :
  toISOString 1700000000000 = lit "2023-11-14T22:13:20.000Z".
Proof. vm_compute. reflexivity. Qed.

Example toISOString_leap_day :
  toISOString 1709210096789 = lit "2024-02-29T12:34:56.789Z".
Proof. vm_compute. reflexivity. Qed.

Example toISOString_before_epoch :
  toISOString (-1) = lit "1969-12-31T23:59:59.999Z".
Proof. vm_compute. reflexivity. Qed.

Example toISOString_last : 
  toISOString 8640000000000000 = lit "+275760-09-13T00:00:00.000Z"
  /\ toISOString (-8640000000000000) = lit "-271821-04-20T00:00:00.000Z".
Proof. split; vm_compute; reflexivity. Qed.

Lemma all_from_spec (n : nat) (f : Z -> bool) :
  forall a, all_from n a f = true ->
            forall z, (a <= z < a + Z.of_nat n)%Z -> f z = true.
Proof.
  induction n as [|k IH]; intros a H z Hz; [lia|].
  cbn [all_from] in H. apply andb_true_iff in H. destruct H as [Ha H].
  destruct (Z.eq_dec z a) as [-> | Hne]; [exact Ha|].
  apply (IH (a + 1)%Z H). lia.
Qed.

Lemma every_doe_ok : all_from (Z.to_nat 146097) 0 doe_ok = true.
Proof. vm_compute. reflexivity. Qed.

Lemma doe_ok_holds (doe : Z) : (0 <= doe < 146097)%Z -> doe_ok doe = true.
Proof.
  intros H. apply (@all_from_spec _ doe_ok 0%Z every_doe_ok).
  rewrite Z2Nat.id; lia.
Qed.

Lemma is_leap_era (y e : Z) : is_leap (y + e * 400) = is_leap y.
Proof.
  unfold is_leap.
  replace ((y + e * 400) mod 4)%Z with (y mod 4)%Z
    by (Z.div_mod_to_equations; lia).
  replace ((y + e * 400) mod 100)%Z with (y mod 100)%Z
    by (Z.div_mod_to_equations; lia).
  replace ((y + e * 400) mod 400)%Z with (y mod 400)%Z
    by (Z.div_mod_to_equations; lia).
  reflexivity.
Qed.

Lemma days_in_month_era (y e m : Z) :
  days_in_month (y + e * 400) m = days_in_month y m.
Proof. unfold days_in_month. now rewrite is_leap_era. Qed.

Lemma days_from_civil_era (y e m d : Z) :
  days_from_civil (y + e * 400) m d = (days_from_civil y m d + e * 146097)%Z.
Proof.
  unfold days_from_civil.
  destruct (m <=? 2)%Z.
  - replace ((y + e * 400 - 1) / 400)%Z with ((y - 1) / 400 + e)%Z
      by (Z.div_mod_to_equations; lia).
    replace (y + e * 400 - 1 - ((y - 1) / 400 + e) * 400)%Z
      with (y - 1 - (y - 1) / 400 * 400)%Z by lia.
    lia.
  - replace ((y + e * 400) / 400)%Z with (y / 400 + e)%Z
      by (Z.div_mod_to_equations; lia).
    replace (y + e * 400 - (y / 400 + e) * 400)%Z
      with (y - y / 400 * 400)%Z by lia.
    lia.
Qed.

(** The date of a day number exists, and the day number is found back from
    it. *)
Lemma civil_from_days_sound (z : Z) :
  let '(y, m, d) := civil_from_days z in
  (1 <= m <= 12)%Z
  /\ (1 <= d <= days_in_month y m)%Z
  /\ days_from_civil y m d = z
  /\ ((z + 719468) / 146097 * 400 <= y <= (z + 719468) / 146097 * 400 + 400)%Z.
Proof.
  unfold civil_from_days.
  set (era := ((z + 719468) / 146097)%Z).
  set (doe := (z + 719468 - era * 146097)%Z).
  assert (Hdoe : (0 <= doe < 146097)%Z)
    by (unfold doe, era; Z.div_mod_to_equations; lia).
  pose proof (doe_ok_holds Hdoe) as Hok. unfold doe_ok in Hok.
  destruct (civil_of_doe doe) as [[y m] d].
  repeat (apply andb_true_iff in Hok; destruct Hok as [Hok ?]).
  rewrite days_in_month_era, days_from_civil_era.
  unfold doe in *. repeat split; lia.
Qed.

Lemma civil_of_time_well_formed (t : Z) :
  in_time_range t = true -> well_formed (civil_of_time t) = true.
Proof.
  unfold in_time_range. intros Ht. apply Z.leb_le in Ht.
  unfold civil_of_time.
  pose proof (civil_from_days_sound (t / 86400000)) as Hc.
  destruct (civil_from_days (t / 86400000)) as [[y m] d].
  destruct Hc as [Hm [Hd [_ Hy]]].
  unfold well_formed. cbn [year month day hour minute second millisecond].
  repeat (apply andb_true_iff; split); apply Z.leb_le; try lia;
    try (Z.div_mod_to_equations; lia).
Qed.

(** The time value is found back from its date and time. *)
Lemma time_of_civil_of_time (t : Z) : time_of_civil (civil_of_time t) = t.
Proof.
  unfold time_of_civil, civil_of_time.
  pose proof (civil_from_days_sound (t / 86400000)) as Hc.
  destruct (civil_from_days (t / 86400000)) as [[y m] d].
  destruct Hc as [_ [_ [Hd _]]].
  cbn [year month day hour minute second millisecond]. rewrite Hd.
  Z.div_mod_to_equations. lia.
Qed.

Lemma digit_value_digit (n : Z) : digit_value (digit n) = Some (n mod 10)%Z.
Proof.
  unfold digit. remember (n mod 10)%Z as r eqn:Hr.
  assert (H : (r = 0 \/ r = 1 \/ r = 2 \/ r = 3 \/ r = 4 \/ r = 5 \/ r = 6 \/ r = 7
               \/ r = 8 \/ r = 9)%Z) by (subst r; Z.div_mod_to_equations; lia).
  clear Hr.
  repeat (destruct H as [-> | H]; [reflexivity|]). subst r. reflexivity.
Qed.

Lemma number_from_digit (acc n : Z) (t : jsstring) :
  number_from acc (digit n :: t) = number_from (10 * acc + n mod 10)%Z t.
Proof. cbn [number_from]. now rewrite digit_value_digit. Qed.

Lemma number_from_pad2 (n : Z) : (0 <= n <= 99)%Z -> number_from 0 (pad2 n) = Some n.
Proof.
  intros H. unfold pad2. rewrite !number_from_digit. cbn [number_from].
  f_equal. Z.div_mod_to_equations. lia.
Qed.

Lemma number_from_pad3 (n : Z) : (0 <= n <= 999)%Z -> number_from 0 (pad3 n) = Some n.
Proof.
  intros H. unfold pad3. rewrite !number_from_digit. cbn [number_from].
  f_equal. Z.div_mod_to_equations. lia.
Qed.

Lemma number_from_pad4 (n : Z) : (0 <= n <= 9999)%Z -> number_from 0 (pad4 n) = Some n.
Proof.
  intros H. unfold pad4. rewrite !number_from_digit. cbn [number_from].
  f_equal. Z.div_mod_to_equations. lia.
Qed.

Lemma number_from_pad6 (n : Z) : (0 <= n <= 999999)%Z -> number_from 0 (pad6 n) = Some n.
Proof.
  intros H. unfold pad6. rewrite !number_from_digit. cbn [number_from].
  f_equal. Z.div_mod_to_equations. lia.
Qed.

Lemma days_in_month_le_31 (y m : Z) : (days_in_month y m <= 31)%Z.
Proof.
  unfold days_in_month.
  destruct (m =? 2)%Z; [destruct (is_leap y); lia|].
  destruct ((m =? 4) || (m =? 6) || (m =? 9) || (m =? 11))%Z; lia.
Qed.

(** A date and time that exist are read back from what [render] prints. *)
Lemma parse_render (c : civil_time) :
  well_formed c = true -> parse_iso8601 (render c) = Some c.
Proof.
  intros Hwf. pose proof Hwf as H. unfold well_formed in H.
  repeat (apply andb_true_iff in H; destruct H as [H ?]).
  repeat match goal with
         | E : (_ <=? _)%Z = true |- _ => apply Z.leb_le in E
         end.
  destruct c as [y m d h i s f].
  cbn [year month day hour minute second millisecond] in *.
  pose proof (days_in_month_le_31 y m) as Hdim.
  assert (Hm : number_from 0 (pad2 m) = Some m) by (apply number_from_pad2; lia).
  assert (Hd : number_from 0 (pad2 d) = Some d) by (apply number_from_pad2; lia).
  assert (Hh : number_from 0 (pad2 h) = Some h) by (apply number_from_pad2; lia).
  assert (Hi : number_from 0 (pad2 i) = Some i) by (apply number_from_pad2; lia).
  assert (Hs : number_from 0 (pad2 s) = Some s) by (apply number_from_pad2; lia).
  assert (Hf : number_from 0 (pad3 f) = Some f) by (apply number_from_pad3; lia).
  unfold pad2 in Hm, Hd, Hh, Hi, Hs. unfold pad3 in Hf.
  unfold render, year_string. cbn [year month day hour minute second millisecond].
  destruct ((0 <=? y) && (y <=? 9999))%Z eqn:Hy.
  - apply andb_true_iff in Hy. destruct Hy as [Hy0 Hy1].
    apply Z.leb_le in Hy0, Hy1.
    assert (Hyear : number_from 0 (pad4 y) = Some y) by (apply number_from_pad4; lia).
    unfold pad4 in Hyear.
    unfold parse_iso8601, pad4, pad2, pad3.
    cbn [app List.length Nat.eqb firstn skipn].
    rewrite Hyear. cbn [parse_fields N.eqb Pos.eqb andb].
    rewrite Hm, Hd, Hh, Hi, Hs, Hf. now rewrite Hwf.
  - assert (Hyear : number_from 0 (pad6 (Z.abs y)) = Some (Z.abs y))
      by (apply number_from_pad6; lia).
    unfold pad6 in Hyear.
    unfold parse_iso8601, pad6, pad2, pad3.
    cbn [app List.length Nat.eqb firstn skipn].
    unfold signed_year. rewrite Hyear.
    destruct (y <? 0)%Z eqn:Hneg.
    + apply Z.ltb_lt in Hneg. cbn [N.eqb Pos.eqb].
      replace (- Z.abs y)%Z with y by lia.
      cbn [parse_fields N.eqb Pos.eqb andb].
      rewrite Hm, Hd, Hh, Hi, Hs, Hf. now rewrite Hwf.
    + apply Z.ltb_ge in Hneg. cbn [N.eqb Pos.eqb].
      replace (Z.abs y) with y by lia.
      cbn [parse_fields N.eqb Pos.eqb andb].
      rewrite Hm, Hd, Hh, Hi, Hs, Hf. now rewrite Hwf.
Qed.

(** What [toISOString] prints for a time value is an ISO-8601 timestamp, and
    the instant it denotes is that time value. *)
Lemma toISOString_valid (t : Z) :
  in_time_range t = true ->
  parse_iso8601 (toISOString t) = Some (civil_of_time t)
  /\ instant_of (toISOString t) = Some t.
Proof.
  intros Ht. pose proof (parse_render _ (civil_of_time_well_formed t Ht)) as Hp.
  split; [exact Hp|].
  unfold instant_of, toISOString. rewrite Hp. now rewrite time_of_civil_of_time.
Qed.

Example not_a_timestamp :
  parse_iso8601 (lit "2023-02-30T10:00:00.000Z") = None
  /\ parse_iso8601 (lit "2023-11-14 22:13:20") = None
  /\ instant_of (lit "2023-11-14T22:13:20.000Z") = Some 1700000000000%Z.
Proof. repeat split. Qed.


(** ** Strings *)

Example trim_strips_unicode_space :
  trim (12288%N :: lit " a b " ++ [10%N]) = lit "a b".
Proof. reflexivity. Qed.

Example collapse_joins_runs :
  collapse (lit "a " ++ [9%N; 10%N] ++ lit "b  c") = lit "a b c".
Proof. reflexivity. Qed.

Example includes_marker :
  includes (lit "https://note.com/a/n/n1") (lit "note.com/") = true
  /\ includes (lit "https://note.community") (lit "note.com/") = false.
Proof. split; reflexivity. Qed.

Example array_slice_to_fraction :
  array_slice_to (Fin (5 # 2)) [1; 2; 3] = [1; 2]
  /\ array_slice_to NaN [1; 2; 3] = []
  /\ array_slice_to (num (-1)) [1; 2; 3] = [1; 2].
Proof. repeat split. Qed.

Lemma startsWith_prefix (p s : jsstring) :
  startsWith s p = true <-> exists rest, s = p ++ rest.
Proof.
  revert s; induction p as [|c p IH]; intros s.
  - split; [intros _; now exists s | intros _; destruct s; reflexivity].
  - destruct s as [|d s]; simpl.
    + split; [discriminate | intros [rest H]; discriminate].
    + rewrite andb_true_iff, N.eqb_eq, IH. split.
      * intros [-> [rest ->]]. now exists rest.
      * intros [rest H]. injection H as -> ->. split; [reflexivity | now exists rest].
Qed.

Lemma includes_substring (p s : jsstring) :
  includes s p = true <-> exists pre post, s = pre ++ p ++ post.
Proof.
  induction s as [|d s IH].
  - cbn [includes]. rewrite orb_false_r, startsWith_prefix. split.
    + intros [rest H]. now exists [], rest.
    + intros [pre [post H]]. destruct pre; [now exists post | discriminate].
  - cbn [includes]. rewrite orb_true_iff, startsWith_prefix, IH. split.
    + intros [[rest H] | [pre [post H]]].
      * now exists [], rest.
      * exists (d :: pre), post. simpl. now rewrite H.
    + intros [pre [post H]]. destruct pre as [|e pre].
      * left. now exists post.
      * right. injection H as _ H. now exists pre, post.
Qed.

Lemma slice_to_length (n : nat) (s : jsstring) : List.length (slice_to n s) <= n.
Proof. unfold slice_to. rewrite length_firstn. lia. Qed.

Lemma slice_to_nonempty (n : nat) (s : jsstring) :
  0 < n -> s <> [] -> slice_to n s <> [].
Proof.
  intros Hn Hs. destruct n; [lia|]. destruct s; [congruence|]. discriminate.
Qed.

Lemma is_empty_false (s : jsstring) : is_empty s = false <-> s <> [].
Proof. destruct s; simpl; split; congruence. Qed.

Lemma jsstring_eqb_eq (a b : jsstring) : jsstring_eqb a b = true <-> a = b.
Proof.
  revert b; induction a as [|c a IH]; intros [|d b]; simpl;
    try (split; [discriminate | congruence]); [split; reflexivity|].
  rewrite andb_true_iff, N.eqb_eq, IH. split.
  - now intros [-> ->].
  - intros H. now injection H.
Qed.

Lemma trimStart_all_ws (s : jsstring) : forallb is_ws s = true -> trimStart s = [].
Proof.
  induction s as [|c s IH]; simpl; [reflexivity|].
  rewrite andb_true_iff. intros [-> H]. auto.
Qed.

Lemma trim_all_ws (s : jsstring) : forallb is_ws s = true -> trim s = [].
Proof. intros H. unfold trim. now rewrite trimStart_all_ws. Qed.

(** The [each] loop keeps, in document order, the cleaned texts that are not
    empty. *)
Lemma fold_push_heading (matched acc : list jsstring) :
  fold_left push_heading matched acc =
  acc ++ filter (fun t => negb (is_empty t)) (map (fun e => trim (collapse e)) matched).
Proof.
  revert acc; induction matched as [|e l IH]; intros acc; simpl.
  - now rewrite app_nil_r.
  - rewrite IH. unfold push_heading.
    destruct (is_empty (trim (collapse e))); simpl; [reflexivity|].
    now rewrite <- app_assoc.
Qed.

Lemma each_heading_filter (matched : list jsstring) :
  each_heading matched =
  filter (fun t => negb (is_empty t)) (map (fun e => trim (collapse e)) matched).
Proof. unfold each_heading. now rewrite fold_push_heading. Qed.

(** ** Whitespace *)

Lemma collapse_from_single_spaced (s : jsstring) :
  forall b, single_spaced b (collapse_from b s) = true.
Proof.
  induction s as [|c s IH]; intros b; simpl; [reflexivity|].
  destruct (is_ws c) eqn:Hc.
  - destruct b; [apply IH|]. simpl. apply IH.
  - simpl. rewrite Hc. apply IH.
Qed.

Lemma single_spaced_weaken (s : jsstring) :
  single_spaced true s = true -> single_spaced false s = true.
Proof.
  destruct s as [|c s]; simpl; [reflexivity|].
  destruct (is_ws c); [|exact (fun H => H)].
  rewrite !andb_true_iff. intros [[_ H] _]. discriminate.
Qed.

Lemma trimStart_single_spaced (s : jsstring) :
  forall b, single_spaced b s = true -> single_spaced false (trimStart s) = true.
Proof.
  induction s as [|c s IH]; intros b; simpl; [reflexivity|].
  destruct (is_ws c) eqn:Hc.
  - rewrite !andb_true_iff. intros [_ H]. now apply (IH true).
  - simpl. now rewrite Hc.
Qed.

Lemma trimStart_starts (s : jsstring) : starts_with_ws (trimStart s) = false.
Proof.
  induction s as [|c s IH]; simpl; [reflexivity|].
  destruct (is_ws c) eqn:Hc; [exact IH | simpl; exact Hc].
Qed.

Lemma trimEnd_single_spaced (s : jsstring) :
  forall b, single_spaced b s = true -> single_spaced b (trimEnd s) = true.
Proof.
  induction s as [|c s IH]; intros b; simpl; [reflexivity|].
  destruct (is_ws c) eqn:Hc.
  - rewrite !andb_true_iff. intros [Hb H]. apply IH in H.
    destruct (trimEnd s) as [|d t']; [reflexivity|].
    cbn [single_spaced]. rewrite Hc, !andb_true_iff. now split.
  - intros H. apply IH in H.
    destruct (trimEnd s) as [|d t']; cbn [single_spaced]; now rewrite Hc.
Qed.

Lemma trimEnd_ends (s : jsstring) : ends_with_ws (trimEnd s) = false.
Proof.
  induction s as [|c s IH]; simpl; [reflexivity|].
  destruct (trimEnd s) as [|d t'].
  - destruct (is_ws c) eqn:Hc; simpl; [reflexivity | exact Hc].
  - exact IH.
Qed.

Lemma trimEnd_starts (s : jsstring) :
  starts_with_ws s = false -> starts_with_ws (trimEnd s) = false.
Proof.
  destruct s as [|c s]; simpl; [reflexivity|]. intros Hc.
  destruct (trimEnd s); [rewrite Hc|]; simpl; now rewrite ?Hc.
Qed.

(** What [text.replace(/\s+/g, " ").trim()] returns is tidy. *)
Lemma trim_collapse_tidy (s : jsstring) : tidy (trim (collapse s)) = true.
Proof.
  unfold tidy, trim, collapse. rewrite !andb_true_iff, !negb_true_iff.
  split; [split|].
  - apply trimEnd_single_spaced, trimStart_single_spaced with (b := false).
    apply collapse_from_single_spaced.
  - apply trimEnd_starts, trimStart_starts.
  - apply trimEnd_ends.
Qed.

Lemma firstn_single_spaced (n : nat) (s : jsstring) :
  forall b, single_spaced b s = true -> single_spaced b (firstn n s) = true.
Proof.
  revert s; induction n as [|n IH]; intros [|c s] b; simpl; try reflexivity.
  destruct (is_ws c).
  - rewrite !andb_true_iff. intros [Hb H]. split; [exact Hb | now apply IH].
  - apply IH.
Qed.

(** Cutting a tidy string at [n] units keeps it single-spaced and free of
    leading whitespace; it can end in a space only when it was really cut. *)
Lemma slice_to_tidy (n : nat) (t : jsstring) :
  tidy t = true ->
  single_spaced false (slice_to n t) = true
  /\ (0 < n -> starts_with_ws (slice_to n t) = false)
  /\ (ends_with_ws (slice_to n t) = true -> List.length (slice_to n t) = n).
Proof.
  unfold tidy, slice_to. rewrite !andb_true_iff, !negb_true_iff.
  intros [[H1 H2] H3]. split; [|split].
  - now apply firstn_single_spaced.
  - intros Hn. destruct n; [lia|]. destruct t; [reflexivity | exact H2].
  - intros He. destruct (Nat.le_gt_cases (List.length t) n) as [Hle|Hgt].
    + rewrite firstn_all2 in He by exact Hle. congruence.
    + rewrite length_firstn. lia.
Qed.

(** ** Numbers and the result count *)

Lemma Qle_bool_false (p q : Q) : Qle_bool p q = false <-> (q < p)%Q.
Proof.
  rewrite <- not_true_iff_false, Qle_bool_iff. split.
  - apply Qnot_le_lt.
  - apply Qlt_not_le.
Qed.

Lemma clamp_finite (q : Q) :
  Server.clamp (Fin q) =
  if Qle_bool 1 q then (if Qle_bool q 10 then Fin q else num 10) else num 1.
Proof.
  unfold Server.clamp, num. cbn [isFinite math_max].
  change (inject_Z 1) with 1%Q. change (inject_Z 10) with 10%Q.
  destruct (Qle_bool 1 q); reflexivity.
Qed.

Lemma post_only_clamp_finite (q : Q) :
  ServerPostOnly.clamp (Fin q) =
  if Qle_bool 1 q then (if Qle_bool q 10 then Fin q else num 10) else num 1.
Proof.
  unfold ServerPostOnly.clamp, num. cbn [math_max].
  change (inject_Z 1) with 1%Q. change (inject_Z 10) with 10%Q.
  destruct (Qle_bool 1 q); reflexivity.
Qed.

Lemma truncate_floor (q : Q) : (0 <= q)%Q -> truncate q = Qfloor q.
Proof.
  destruct q as [a b]. unfold Qle, truncate, Qfloor. simpl. intros H.
  apply Z.quot_div_nonneg; lia.
Qed.

Lemma array_slice_to_count (A : Type) (q : Q) (a : list A) :
  (1 <= q)%Q -> array_slice_to (Fin q) a = firstn (Z.to_nat (Qfloor q)) a.
Proof.
  intros H. unfold array_slice_to.
  assert (H0 : (0 <= q)%Q) by (apply Qle_trans with (2 := H); discriminate).
  rewrite (truncate_floor H0).
  assert (Hf : (0 <= Qfloor q)%Z).
  { change 0%Z with (Qfloor 0). now apply Qfloor_resp_le. }
  destruct (Z.ltb_spec (Qfloor q) 0); [lia | reflexivity].
Qed.

Lemma map_index_length (A B : Type) (f : A -> nat -> B) (a : list A) (i : nat) :
  List.length (map_index f i a) = List.length a.
Proof. revert i; induction a; intros i; simpl; auto. Qed.

Lemma map_index_field (A B C : Type) (f : A -> nat -> B) (g : B -> C) (h : A -> nat -> C)
    (a : list A) (i : nat) :
  (forall r k, g (f r k) = h r k) ->
  map g (map_index f i a) = map_index h i a.
Proof.
  intros H. revert i; induction a as [|r a IH]; intros i; simpl; [reflexivity|].
  now rewrite H, IH.
Qed.

Lemma map_index_rank (A : Type) (a : list A) (i : nat) :
  map_index (fun (_ : A) k => k + 1) i a = seq (i + 1) (List.length a).
Proof.
  revert i; induction a as [|r a IH]; intros i; simpl; [reflexivity|].
  f_equal. apply (IH (S i)).
Qed.

Lemma map_index_const (A B : Type) (h : A -> B) (a : list A) (i : nat) :
  map_index (fun r (_ : nat) => h r) i a = map h a.
Proof. revert i; induction a as [|r a IH]; intros i; simpl; [reflexivity|]. now rewrite IH. Qed.

(** The test of the filter, in words: the entry has a [link] that is a string
    and the string contains the marker. *)
Lemma is_note_link_marker (r : json) :
  is_note_link r = true <->
  exists link pre post,
    opt_prop "link" r = Some (JStr link) /\ link = pre ++ lit "note.com/" ++ post.
Proof.
  unfold is_note_link, as_string. split.
  - destruct (opt_prop "link" r) as [[| | |s| |]|]; try discriminate.
    intros H. apply includes_substring in H. destruct H as [pre [post H]].
    now exists s, pre, post.
  - intros [link [pre [post [-> H]]]]. apply includes_substring. now exists pre, post.
Qed.

Lemma kept_links (kept : list json) :
  Forall (fun r => is_note_link r = true) kept ->
  map (opt_prop "link") kept =
  map (fun r => Some (JStr (or_empty (as_string (opt_prop "link" r))))) kept.
Proof.
  induction 1 as [|r l Hr _ IH]; simpl; [reflexivity|].
  rewrite IH. f_equal.
  apply is_note_link_marker in Hr. destruct Hr as [link [_ [_ [-> _]]]]. reflexivity.
Qed.

Lemma firstn_filter_all (A : Type) (f : A -> bool) (n : nat) (l : list A) :
  Forall (fun r => f r = true) (firstn n (filter f l)).
Proof.
  apply Forall_forall. intros r H.
  assert (Hin : In r (filter f l)).
  { rewrite <- (firstn_skipn n (filter f l)). apply in_or_app. now left. }
  now apply filter_In in Hin.
Qed.

(** C3, as the code has it.  At line 91, for every Number [numRaw]: the
    effective count lies in the interval from 1 to 10; a finite value below 1
    becomes 1, a finite value above 10 becomes 10, a value already between 1
    and 10 is used as given, and a value that is not finite (NaN, +Infinity
    and also -Infinity) becomes the default 10.  At line 254, for every
    Number other than NaN: the effective count lies in the interval from 1
    to 10; a value below 1, -Infinity included, becomes 1, a value above 10,
    +Infinity included, becomes 10, and a value already between 1 and 10 is
    used as given. *)
Theorem clamp_effective_count (numRaw : jsnum) :
  within_1_10 (Server.clamp numRaw)
  /\ (forall q, numRaw = Fin q -> (q < 1)%Q -> Server.clamp numRaw = num 1)
  /\ (forall q, numRaw = Fin q -> (10 < q)%Q -> Server.clamp numRaw = num 10)
  /\ (forall q, numRaw = Fin q -> (1 <= q <= 10)%Q -> Server.clamp numRaw = numRaw)
  /\ (isFinite numRaw = false -> Server.clamp numRaw = num 10)
  /\ (numRaw <> NaN ->
      within_1_10 (ServerPostOnly.clamp numRaw)
      /\ (js_lt numRaw (num 1) = true -> ServerPostOnly.clamp numRaw = num 1)
      /\ (js_lt (num 10) numRaw = true -> ServerPostOnly.clamp numRaw = num 10)
      /\ (within_1_10 numRaw -> ServerPostOnly.clamp numRaw = numRaw)).
Proof.
  split; [|split; [|split; [|split; [|split]]]].
  - destruct numRaw as [| | |q]; try (cbv; split; discriminate).
    rewrite clamp_finite.
    destruct (Qle_bool 1 q) eqn:H1; [|cbv; split; discriminate].
    destruct (Qle_bool q 10) eqn:H2; [|cbv; split; discriminate].
    simpl. split; now apply Qle_bool_iff.
  - intros q -> H. rewrite clamp_finite.
    apply Qle_bool_false in H. now rewrite H.
  - intros q -> H. rewrite clamp_finite.
    assert (H1 : Qle_bool 1 q = true).
    { apply Qle_bool_iff, Qlt_le_weak, Qlt_trans with (2 := H). reflexivity. }
    apply Qle_bool_false in H. now rewrite H1, H.
  - intros q -> [H1 H2]. rewrite clamp_finite.
    apply Qle_bool_iff in H1, H2. now rewrite H1, H2.
  - destruct numRaw; try reflexivity. discriminate.
  - intros Hnan. destruct numRaw as [| | |q]; [congruence | | |].
    + split; [cbv; split; discriminate|]. split; [discriminate|].
      split; [reflexivity | contradiction].
    + split; [cbv; split; discriminate|]. split; [reflexivity|].
      split; [discriminate | contradiction].
    + rewrite post_only_clamp_finite. cbn [js_lt num within_1_10].
      change (inject_Z 1) with 1%Q. change (inject_Z 10) with 10%Q.
      destruct (Qle_bool 1 q) eqn:H1; destruct (Qle_bool q 10) eqn:H2;
        cbn [negb within_1_10].
      * split; [split; now apply Qle_bool_iff|].
        split; [discriminate|]. split; [discriminate | reflexivity].
      * split; [cbv; split; discriminate|].
        split; [discriminate|]. split; [reflexivity|].
        intros [_ H]. apply Qle_bool_iff in H. congruence.
      * split; [cbv; split; discriminate|].
        split; [reflexivity|]. split; [discriminate|].
        intros [H _]. apply Qle_bool_iff in H. congruence.
      * split; [cbv; split; discriminate|].
        split; [reflexivity|]. split; [|intros [H _]; apply Qle_bool_iff in H; congruence].
        intros _. exfalso.
        apply Qle_bool_false in H1, H2.
        apply (Qlt_irrefl q). apply Qlt_trans with (1 := H1).
        apply Qlt_trans with (2 := H2). reflexivity.
Qed.

(** The cases of the count at 0, 50, 5/2 and NaN at line 91, and at
    -Infinity, +Infinity and 5/2 at line 254. *)
Lemma clamp_effective_count_witness :
  Server.clamp (num 0) = num 1
  /\ Server.clamp (num 50) = num 10
  /\ Server.clamp (Fin (5 # 2)) = Fin (5 # 2)
  /\ Server.clamp NaN = num 10
  /\ ServerPostOnly.clamp NInf = num 1
  /\ ServerPostOnly.clamp PInf = num 10
  /\ ServerPostOnly.clamp (Fin (5 # 2)) = Fin (5 # 2).
Proof.
  split; [|split; [|split; [|split; [|split; [|split]]]]].
  - apply (proj1 (proj2 (clamp_effective_count (num 0))) (inject_Z 0) eq_refl).
    reflexivity.
  - apply (proj1 (proj2 (proj2 (clamp_effective_count (num 50)))) (inject_Z 50) eq_refl).
    reflexivity.
  - apply (proj1 (proj2 (proj2 (proj2 (clamp_effective_count (Fin (5 # 2)))))) (5 # 2)%Q eq_refl).
    split; discriminate.
  - apply (proj1 (proj2 (proj2 (proj2 (proj2 (clamp_effective_count NaN)))))).
    reflexivity.
  - assert (Hn : NInf <> NaN) by discriminate.
    destruct (clamp_effective_count NInf) as (_ & _ & _ & _ & _ & HB).
    apply (proj1 (proj2 (HB Hn))). reflexivity.
  - assert (Hn : PInf <> NaN) by discriminate.
    destruct (clamp_effective_count PInf) as (_ & _ & _ & _ & _ & HB).
    apply (proj1 (proj2 (proj2 (HB Hn)))). reflexivity.
  - assert (Hn : Fin (5 # 2) <> NaN) by discriminate.
    destruct (clamp_effective_count (Fin (5 # 2))) as (_ & _ & _ & _ & _ & HB).
    apply (proj2 (proj2 (proj2 (HB Hn)))). split; discriminate.
Defined.

(** C3 as stated fails at -Infinity: it is below 1, and the count used is
    10, not 1. *)
Lemma clamp_negative_infinity :
  js_lt NInf (num 1) = true
  /\ Server.clamp NInf = num 10
  /\ Server.clamp NInf <> num 1.
Proof. repeat split. discriminate. Qed.

(** The number 0 in a POST body is falsy: it is replaced by the default 10
    before it reaches the clamp, in both revisions. *)
Lemma num_of_zero (w : World) :
  Server.num_of w (Some (JNum (num 0))) = Val (num 10)
  /\ ServerPostOnly.num_of w (Some (JNum (num 0))) = Val (num 10).
Proof. split; reflexivity. Qed.

(** Without the finiteness test, the earlier revision lets NaN through. *)
Lemma post_only_clamp_nan : ServerPostOnly.clamp NaN = NaN.
Proof. reflexivity. Qed.

(** C2: the filter keeps exactly the entries whose [link] is a string that
    contains ["note.com/"], the first [num] of them are taken in their
    original order, and each is ranked by its 1-based position among the
    kept ones.  For a clamped [num] that is not whole, [slice] takes its
    integer part. *)
Theorem top_keeps_first_note_links (organic : list json) (q : Q) :
  (1 <= q <= 10)%Q ->
  let kept := firstn (Z.to_nat (Qfloor q)) (filter is_note_link organic) in
  (forall r, In r (filter is_note_link organic) <->
             In r organic /\
             exists link pre post,
               opt_prop "link" r = Some (JStr link) /\
               link = pre ++ lit "note.com/" ++ post)
  /\ map (fun t => Some (JStr (url t))) (Server.top_of (Fin q) organic)
     = map (opt_prop "link") kept
  /\ map (@rank jsstring) (Server.top_of (Fin q) organic) = seq 1 (List.length kept)
  /\ map (fun t => Some (JStr (url t))) (ServerPostOnly.top_of (Fin q) organic)
     = map (opt_prop "link") kept
  /\ map (@rank json) (ServerPostOnly.top_of (Fin q) organic) = seq 1 (List.length kept).
Proof.
  intros [H1 _] kept.
  assert (Hk : Forall (fun r => is_note_link r = true) kept)
    by apply firstn_filter_all.
  split; [|split; [|split; [|split]]].
  - intros r. rewrite filter_In, is_note_link_marker. reflexivity.
  - unfold Server.top_of. rewrite (array_slice_to_count _ H1). fold kept.
    rewrite (kept_links Hk).
    erewrite map_index_field with (h := fun r _ => _); [apply map_index_const|].
    reflexivity.
  - unfold Server.top_of. rewrite (array_slice_to_count _ H1). fold kept.
    erewrite map_index_field with (h := fun _ k => k + 1); [apply (map_index_rank kept 0)|].
    reflexivity.
  - unfold ServerPostOnly.top_of. rewrite (array_slice_to_count _ H1). fold kept.
    rewrite (kept_links Hk).
    erewrite map_index_field with (h := fun r _ => _); [apply map_index_const|].
    reflexivity.
  - unfold ServerPostOnly.top_of. rewrite (array_slice_to_count _ H1). fold kept.
    erewrite map_index_field with (h := fun _ k => k + 1); [apply (map_index_rank kept 0)|].
    reflexivity.
Qed.

(** With [num = 2], the five sample results give ranks 1 and 2. *)
Lemma top_keeps_first_note_links_witness :
  (1 <= 2 <= 10)%Q
  /\ map (@rank jsstring) (Server.top_of (Fin 2) sample_organic) = [1; 2]
  /\ map (@rank json) (ServerPostOnly.top_of (Fin 2) sample_organic) = [1; 2].
Proof.
  assert (H : (1 <= 2 <= 10)%Q) by (split; discriminate).
  split; [exact H|].
  pose proof (top_keeps_first_note_links sample_organic H) as P.
  split.
  - exact (proj1 (proj2 (proj2 P))).
  - exact (proj2 (proj2 (proj2 (proj2 P)))).
Defined.

(** ** Running the handlers *)

Lemma extractHeadings_run (w : World) (u : jsstring) (s : St) :
  Server.extractHeadings w u s =
  (Val (settled w (net w (fetches s) (Page u) (Some 20000%N))),
   after_fetch s (Page u) (Some 20000%N)).
Proof.
  unfold Server.extractHeadings, Server.fetchWithTimeout, try_catch, bind, fetch, settled.
  destruct (net w (fetches s) (Page u) (Some 20000%N)) as [resp|e]; [|reflexivity].
  destruct (ok resp); simpl; [|reflexivity].
  unfold text, lift. destruct (http_body resp) as [html|e]; [|reflexivity].
  destruct (cheerio_load w html); reflexivity.
Qed.

Lemma extract_each_run (w : World) (top : list (SearchResult jsstring)) :
  forall (results : list (OutlineRecord jsstring)) (s : St),
  exists added s',
    Server.extract_each w top results s = (Val (results ++ added), s')
    /\ map (@item jsstring) added = top
    /\ map (@fetched_at jsstring) added
       = map (fun k => toISOString (date_now w k)) (seq (reads s) (List.length top))
    /\ log s' = log s ++ flat_map (fun it => [Fetched (Page (url it)) (Some 20000%N);
                                              Slept 500]) top.
Proof.
  induction top as [|it rest IH]; intros results s.
  - exists [], s. simpl. now rewrite !app_nil_r.
  - cbn [Server.extract_each]. unfold bind at 1. rewrite extractHeadings_run.
    unfold bind at 1. unfold now_iso at 1. unfold bind at 1. unfold sleep at 1.
    set (ex := settled w _). set (s1 := after_sleep _ _).
    destruct (IH (results ++ [{| item := it; extracted := ex;
                                  fetched_at := toISOString (date_now w (reads s)) |}]) s1)
      as [added [s' [Hrun [Hitems [Hstamps Hlog]]]]].
    exists ({| item := it; extracted := ex; fetched_at := toISOString (date_now w (reads s)) |} :: added), s'.
    split; [|split; [|split]].
    + change (reads (after_fetch s (Page (url it)) (Some 20000%N))) with (reads s).
      rewrite Hrun. now rewrite <- app_assoc.
    + simpl. now rewrite Hitems.
    + simpl. rewrite Hstamps. reflexivity.
    + rewrite Hlog. simpl. now rewrite <- !app_assoc.
Qed.

Lemma json_or_empty_run (w : World) (resp : HttpResponse) (s : St) :
  try_catch (json_of w resp) (fun _ => ret (JObj [])) s = (Val (json_or_empty w resp), s).
Proof.
  unfold try_catch, json_of, bind, text, lift, json_or_empty, ret.
  destruct (http_body resp) as [b|e]; [|reflexivity].
  destruct (json_parse w b); reflexivity.
Qed.

Lemma handle_after_search (env : Env) (w : World) (req : Request) (query : jsstring)
    (numRaw : jsnum) (s : St) (resp : HttpResponse) (organic : list json) :
  Server.requireAuth env req = Authorized ->
  is_empty (Server.SERPAPI_KEY env) = false ->
  is_empty query = false ->
  net w (fetches s) (search_target env query numRaw) (Some 20000%N) = Val resp ->
  ok resp = true ->
  organic_results (json_or_empty w resp) = Val organic ->
  Server.handleNoteTopOutline env w req query numRaw s =
  let s1 := after_fetch s (search_target env query numRaw) (Some 20000%N) in
  let serpQuery := query ++ lit " site:note.com" in
  let top := Server.top_of (Server.clamp numRaw) organic in
  if Nat.eqb (List.length top) 0
  then (Val {| status := 200;
               body := NoResults serpQuery
                         (lit "No note.com results found in top organic results.") |}, s1)
  else match Server.extract_each w top [] s1 with
       | (Val results, s2) =>
           (Val {| status := 200; body := Outline serpQuery results |}, s2)
       | (Exn e, s2) =>
           (Val {| status := 500;
                   body := ErrorBody (lit "Internal error") None (Some e) |}, s2)
       end.
Proof.
  intros Hauth Hkey Hq Hnet Hok Horg.
  unfold Server.handleNoteTopOutline. unfold try_catch at 1.
  rewrite Hauth, Hkey, Hq.
  unfold bind at 1. unfold Server.fetchWithTimeout, fetch.
  fold (search_target env query numRaw). rewrite Hnet, Hok.
  cbn [negb]. unfold bind at 1. rewrite json_or_empty_run.
  unfold bind at 1. unfold lift at 1. rewrite Horg.
  cbv zeta.
  destruct (Nat.eqb _ 0); [reflexivity|].
  unfold bind at 1.
  destruct (Server.extract_each w _ [] _) as [[results|e] s2]; reflexivity.
Qed.

(** ** The page extractor *)

(** The extractor of lines 162-210 returns for every URL and never throws:
    it yields the all-empty extract when the fetch rejects, the response is
    not 2xx, the body cannot be read or the page cannot be parsed, and the
    loop over the batch therefore reaches every entry. *)
Lemma extractHeadings_never_raises (w : World) (u : jsstring) (s : St) :
  exists p,
    Server.extractHeadings w u s = (Val p, after_fetch s (Page u) (Some 20000%N))
    /\ match net w (fetches s) (Page u) (Some 20000%N) with
       | Exn _ => p = empty_extract
       | Val resp =>
           if ok resp
           then match http_body resp with
                | Exn _ => p = empty_extract
                | Val html =>
                    match cheerio_load w html with
                    | Exn _ => p = empty_extract
                    | Val doc => p = Server.extract doc
                    end
                end
           else p = empty_extract
       end.
Proof.
  exists (settled w (net w (fetches s) (Page u) (Some 20000%N))).
  split; [apply extractHeadings_run|].
  unfold settled.
  destruct (net w (fetches s) (Page u) (Some 20000%N)) as [resp|e]; [|reflexivity].
  destruct (ok resp); [|reflexivity].
  destruct (http_body resp) as [html|e]; [|reflexivity].
  destruct (cheerio_load w html); reflexivity.
Qed.

Lemma extract_each_reaches_all (w : World) (top : list (SearchResult jsstring)) (s : St) :
  exists results s',
    Server.extract_each w top [] s = (Val results, s')
    /\ map (@item jsstring) results = top.
Proof.
  destruct (extract_each_run w top [] s) as [added [s' [Hrun [Hitems _]]]].
  exists added, s'. now split.
Qed.

(** C1 at the extractor of lines 311-348, which has no [try]: when the fetch
    of a page rejects, the rejection leaves [extractHeadings], the handler's
    catch-all answers 500 and the entries after it are never fetched.  On
    the same world the extractor of lines 162-210 returns the all-empty
    extract and the handler delivers all three entries. *)
Theorem post_only_extractHeadings_raises :
  fst (ServerPostOnly.extractHeadings sample_world (lit "https://note.com/a/n/n1") st0)
  = Exn (lit "fetch failed")
  /\ fst (ServerPostOnly.post_note_top_outline sample_env sample_world sample_request st0)
     = Val {| status := 500;
              body := ErrorBody (lit "Internal error") None (Some (lit "fetch failed")) |}
  /\ fst (Server.extractHeadings sample_world (lit "https://note.com/a/n/n1") st0)
     = Val empty_extract
  /\ (exists results,
        fst (Server.post_note_top_outline sample_env sample_world sample_request st0)
        = Val {| status := 200;
                 body := Outline (lit "productivity tips site:note.com") results |}
        /\ map (fun r => extracted r) results
           = [empty_extract; Server.extract sample_doc; Server.extract sample_doc]).
Proof.
  split; [|split; [|split]]; try (vm_compute; reflexivity).
  eexists. split; vm_compute; reflexivity.
Qed.

(** ** The handler after a successful search *)

Lemma top_of_ranks (n : jsnum) (organic : list json) :
  map (@rank jsstring) (Server.top_of n organic)
  = seq 1 (List.length (Server.top_of n organic)).
Proof.
  unfold Server.top_of. rewrite map_index_length.
  erewrite map_index_field with (h := fun _ k => k + 1);
    [apply (map_index_rank _ 0) | reflexivity].
Qed.

Lemma top_of_empty (n : jsnum) (organic : list json) :
  filter is_note_link organic = [] -> Server.top_of n organic = [].
Proof.
  intros H. unfold Server.top_of. rewrite H.
  destruct n as [| | |q]; try reflexivity.
  unfold array_slice_to. destruct (truncate q <? 0)%Z; now rewrite firstn_nil.
Qed.

Lemma sorted_readings (f : nat -> Z) (n : nat) :
  (forall i j, i <= j -> (f i <= f j)%Z) ->
  forall a, Sorted Z.le (map f (seq a n)).
Proof.
  intros Hf. induction n as [|n IH]; intros a; simpl; constructor.
  - apply IH.
  - destruct n; simpl; constructor. apply Hf. lia.
Qed.

(** In the handler of lines 83-160, a search without a single note.com link
    ends the request at once: 200, no results, the note, and nothing but the
    search call in the log. *)
Lemma no_note_links_short_circuit (env : Env) (w : World) (req : Request)
    (query : jsstring) (numRaw : jsnum) (s : St) (resp : HttpResponse)
    (organic : list json) :
  Server.requireAuth env req = Authorized ->
  is_empty (Server.SERPAPI_KEY env) = false ->
  is_empty query = false ->
  net w (fetches s) (search_target env query numRaw) (Some 20000%N) = Val resp ->
  ok resp = true ->
  organic_results (json_or_empty w resp) = Val organic ->
  filter is_note_link organic = [] ->
  Server.handleNoteTopOutline env w req query numRaw s =
  (Val {| status := 200;
          body := NoResults (query ++ lit " site:note.com")
                    (lit "No note.com results found in top organic results.") |},
   after_fetch s (search_target env query numRaw) (Some 20000%N)).
Proof.
  intros Hauth Hkey Hq Hnet Hok Horg Hnone.
  rewrite (handle_after_search env w req query numRaw s Hauth Hkey Hq Hnet Hok Horg).
  cbv zeta. now rewrite (top_of_empty _ _ Hnone).
Qed.

(** C4 at the handler of lines 245-309, which has no early exit for an empty
    [top]: with no note.com link among the results it answers 200 with
    [results: []] and fetches no page, but its body carries no [note].  On
    the same request the handler of lines 83-160 sends the note. *)
Theorem post_only_no_results_has_no_note :
  filter is_note_link [entry "https://example.com/post" "elsewhere"] = []
  /\ ServerPostOnly.post_note_top_outline sample_env elsewhere_world sample_request st0
     = (Val {| status := 200;
               body := Outline (lit "productivity tips site:note.com") [] |},
        after_fetch st0
          (SearchApi (serp_params (lit "productivity tips site:note.com") (num 3) (lit "key")))
          None)
  /\ Server.post_note_top_outline sample_env elsewhere_world sample_request st0
     = (Val {| status := 200;
               body := NoResults (lit "productivity tips site:note.com")
                         (lit "No note.com results found in top organic results.") |},
        after_fetch st0
          (SearchApi (serp_params (lit "productivity tips site:note.com") (num 3) (lit "key")))
          (Some 20000%N)).
Proof. split; [|split]; vm_compute; reflexivity. Qed.

Lemma stamps_valid (w : World) (a n : nat) :
  Forall (fun stamp => exists c, parse_iso8601 stamp = Some c)
    (map (fun k => toISOString (date_now w k)) (seq a n))
  /\ map instant_of (map (fun k => toISOString (date_now w k)) (seq a n))
     = map (fun k => Some (date_now w k)) (seq a n).
Proof.
  split.
  - apply Forall_forall. intros stamp H. apply in_map_iff in H.
    destruct H as [k [<- _]]. exists (civil_of_time (date_now w k)).
    apply toISOString_valid, date_in_range.
  - rewrite map_map. apply map_ext. intros k.
    apply toISOString_valid, date_in_range.
Qed.

(** C5, as the code has it: when the search of the handler of lines 83-160
    leaves N >= 1 filtered links, the response is the success payload whose
    [query] is the handler's query followed by [" site:note.com"] and whose
    [results] has exactly N entries, one per filtered link and ranked 1..N in
    order.  Each [fetched_at] is a valid ISO-8601 timestamp: it is what
    [toISOString] prints for the reading of the system clock taken for that
    entry, and it denotes that reading.  The readings are taken in array
    order, so the timestamps never decrease along the array as long as the
    clock does not step backwards between two readings. *)
Theorem outline_results_ranked_and_stamped (env : Env) (w : World) (req : Request)
    (query : jsstring) (numRaw : jsnum) (s : St) (resp : HttpResponse)
    (organic : list json) :
  Server.requireAuth env req = Authorized ->
  is_empty (Server.SERPAPI_KEY env) = false ->
  is_empty query = false ->
  net w (fetches s) (search_target env query numRaw) (Some 20000%N) = Val resp ->
  ok resp = true ->
  organic_results (json_or_empty w resp) = Val organic ->
  Server.top_of (Server.clamp numRaw) organic <> [] ->
  exists results s',
    Server.handleNoteTopOutline env w req query numRaw s
    = (Val {| status := 200; body := Outline (query ++ lit " site:note.com") results |}, s')
    /\ map (@item jsstring) results = Server.top_of (Server.clamp numRaw) organic
    /\ List.length results = List.length (Server.top_of (Server.clamp numRaw) organic)
    /\ map (fun r => rank (item r)) results = seq 1 (List.length results)
    /\ Forall (fun r => exists c, parse_iso8601 (fetched_at r) = Some c) results
    /\ exists readings,
         readings = map (date_now w) (seq (reads s) (List.length results))
         /\ map (fun r => instant_of (fetched_at r)) results = map Some readings
         /\ ((forall i j, i <= j -> (date_now w i <= date_now w j)%Z) ->
             Sorted Z.le readings).
Proof.
  intros Hauth Hkey Hq Hnet Hok Horg Htop.
  rewrite (handle_after_search env w req query numRaw s Hauth Hkey Hq Hnet Hok Horg).
  cbv zeta.
  set (top := Server.top_of (Server.clamp numRaw) organic) in *.
  destruct (Nat.eqb_spec (List.length top) 0) as [H0|_].
  { destruct top; [congruence | discriminate]. }
  set (s1 := after_fetch s _ _).
  destruct (extract_each_run w top [] s1) as [added [s' [Hrun [Hitems [Hstamps _]]]]].
  rewrite Hrun. simpl. exists added, s'.
  assert (Hlen : List.length added = List.length top).
  { now rewrite <- Hitems, length_map. }
  destruct (stamps_valid w (reads s) (List.length top)) as [Hvalid Hinst].
  change (reads s1) with (reads s) in Hstamps.
  split; [reflexivity|]. split; [exact Hitems|]. split; [exact Hlen|].
  split; [|split].
  - rewrite <- (map_map (@item jsstring) (@rank jsstring)), Hitems, Hlen.
    apply top_of_ranks.
  - rewrite <- Hstamps in Hvalid. rewrite Forall_forall in Hvalid.
    apply Forall_forall. intros r Hr. apply Hvalid. now apply in_map.
  - exists (map (date_now w) (seq (reads s) (List.length added))).
    split; [reflexivity|]. split.
    + rewrite <- (map_map (@fetched_at jsstring) instant_of), Hstamps, Hlen, Hinst.
      now rewrite map_map.
    + intros Hclock. now apply sorted_readings.
Qed.

(** The example of the specification: three of five links are on note.com
    and [num] is 3. *)
Lemma outline_results_ranked_and_stamped_witness :
  exists results s',
    Server.handleNoteTopOutline sample_env sample_world sample_request
      (lit "productivity tips") (num 3) st0
    = (Val {| status := 200;
              body := Outline (lit "productivity tips site:note.com") results |}, s')
    /\ List.length results = 3
    /\ map (fun r => rank (item r)) results = [1; 2; 3]
    /\ map (fun r => instant_of (fetched_at r)) results
       = [Some 1700000000000; Some 1700000000600; Some 1700000001200]%Z.
Proof.
  assert (Hauth : Server.requireAuth sample_env sample_request = Authorized)
    by reflexivity.
  assert (Hkey : is_empty (Server.SERPAPI_KEY sample_env) = false) by reflexivity.
  assert (Hq : is_empty (lit "productivity tips") = false) by reflexivity.
  assert (Hnet : net sample_world (fetches st0)
                   (search_target sample_env (lit "productivity tips") (num 3))
                   (Some 20000%N)
                 = Val {| http_status := 200; http_body := Val (lit "{}") |})
    by reflexivity.
  assert (Hok : ok {| http_status := 200; http_body := Val (lit "{}") |} = true)
    by reflexivity.
  assert (Horg : organic_results
                   (json_or_empty sample_world
                      {| http_status := 200; http_body := Val (lit "{}") |})
                 = Val sample_organic) by reflexivity.
  assert (Htop : Server.top_of (Server.clamp (num 3)) sample_organic <> [])
    by (vm_compute; discriminate).
  pose proof (outline_results_ranked_and_stamped sample_env sample_world sample_request
                (lit "productivity tips") (num 3) st0
                Hauth Hkey Hq Hnet Hok Horg Htop) as P.
  destruct P as [results [s' [Hrun [_ [Hlen [Hranks [_ [readings [Hr [Hinst _]]]]]]]]]].
  subst readings.
  exists results, s'. split; [exact Hrun|].
  assert (H3 : List.length (Server.top_of (Server.clamp (num 3)) sample_organic) = 3)
    by (vm_compute; reflexivity).
  rewrite H3 in Hlen.
  split; [exact Hlen|]. split.
  - rewrite Hranks, Hlen. reflexivity.
  - rewrite Hinst, Hlen. vm_compute. reflexivity.
Defined.

(** C5 as stated fails when the system clock is set back while the pages are
    fetched: the three timestamps of the response are valid, but each is one
    second earlier than the one before it. *)
Lemma timestamps_follow_a_clock_set_back :
  match fst (Server.handleNoteTopOutline sample_env backward_world sample_request
               (lit "productivity tips") (num 3) st0) with
  | Val r =>
      match body r with
      | Outline _ results =>
          map (@fetched_at jsstring) results
          = [lit "2023-11-14T22:13:20.000Z"; lit "2023-11-14T22:13:19.000Z";
             lit "2023-11-14T22:13:18.000Z"]
          /\ map (fun r => instant_of (fetched_at r)) results
             = [Some 1700000000000; Some 1699999999000; Some 1699999998000]%Z
      | _ => False
      end
  | Exn _ => False
  end
  /\ ~ Sorted Z.le [1700000000000; 1699999999000; 1699999998000]%Z.
Proof.
  split.
  - vm_compute. split; reflexivity.
  - intros H. inversion H as [|a l _ Hd]; subst. inversion Hd; subst. lia.
Qed.

(** ** Caps and non-empty headings *)

Lemma kept_headings_caps (limit : nat) (tag : string) (doc : document) :
  List.length (kept_headings limit tag doc) <= limit
  /\ Forall (fun t => List.length t <= 200) (kept_headings limit tag doc).
Proof.
  unfold kept_headings. split.
  - rewrite length_map, length_firstn. lia.
  - apply Forall_forall. intros t Ht. apply in_map_iff in Ht.
    destruct Ht as [x [<- _]]. apply slice_to_length.
Qed.

Lemma kept_headings_nonempty (limit : nat) (tag : string) (doc : document) :
  Forall (fun t => t <> []) (kept_headings limit tag doc).
Proof.
  unfold kept_headings. apply Forall_forall. intros t Ht.
  apply in_map_iff in Ht. destruct Ht as [x [<- Hx]].
  assert (Hin : In x (filter (fun t => negb (is_empty t))
                        (map (fun e => trim (collapse e)) (select tag doc)))).
  { rewrite <- (firstn_skipn limit (filter _ _)). apply in_or_app. now left. }
  apply filter_In in Hin. destruct Hin as [_ Hne].
  apply slice_to_nonempty; [lia|]. apply is_empty_false.
  now apply negb_true_iff in Hne.
Qed.

Lemma server_extract_headings (doc : document) :
  h2 (Server.extract doc) = kept_headings 20 "h2" doc
  /\ h3 (Server.extract doc) = kept_headings 40 "h3" doc.
Proof.
  unfold Server.extract, kept_headings. simpl. now rewrite !each_heading_filter.
Qed.

Lemma post_only_extract_headings (doc : document) :
  h2 (ServerPostOnly.extract doc) = kept_headings 20 "h2" doc
  /\ h3 (ServerPostOnly.extract doc) = kept_headings 40 "h3" doc.
Proof.
  unfold ServerPostOnly.extract, kept_headings. simpl. now rewrite !each_heading_filter.
Qed.

Lemma server_extract_caps (doc : document) : within_caps (Server.extract doc).
Proof.
  destruct (server_extract_headings doc) as [E2 E3].
  unfold within_caps. rewrite E2, E3.
  destruct (kept_headings_caps 20 "h2" doc), (kept_headings_caps 40 "h3" doc).
  repeat split; try assumption; apply slice_to_length.
Qed.

Lemma post_only_extract_caps (doc : document) : within_caps (ServerPostOnly.extract doc).
Proof.
  destruct (post_only_extract_headings doc) as [E2 E3].
  unfold within_caps. rewrite E2, E3.
  destruct (kept_headings_caps 20 "h2" doc), (kept_headings_caps 40 "h3" doc).
  repeat split; try assumption; apply slice_to_length.
Qed.

Lemma empty_extract_caps : within_caps empty_extract.
Proof. unfold within_caps. simpl. repeat split; try lia; constructor. Qed.

Lemma empty_extract_nonempty : headings_nonempty empty_extract.
Proof. split; constructor. Qed.

(** Every extract the extractor of lines 162-210 returns has a property that
    the all-empty extract and every parsed page have. *)
Lemma server_extractHeadings_all (P : PageExtract -> Prop) (w : World) (u : jsstring)
    (s : St) :
  P empty_extract -> (forall doc, P (Server.extract doc)) ->
  exists p, fst (Server.extractHeadings w u s) = Val p /\ P p.
Proof.
  intros He Hd. rewrite extractHeadings_run. simpl.
  eexists. split; [reflexivity|]. unfold settled.
  destruct (net w (fetches s) (Page u) (Some 20000%N)) as [resp|e]; [|exact He].
  destruct (ok resp); [|exact He].
  destruct (http_body resp) as [html|e]; [|exact He].
  destruct (cheerio_load w html); [apply Hd | exact He].
Qed.

(** The same for the extractor of lines 311-348, whenever it returns. *)
Lemma post_only_extractHeadings_all (P : PageExtract -> Prop) (w : World) (u : jsstring)
    (s : St) :
  P empty_extract -> (forall doc, P (ServerPostOnly.extract doc)) ->
  match fst (ServerPostOnly.extractHeadings w u s) with
  | Val p => P p
  | Exn _ => True
  end.
Proof.
  intros He Hd.
  unfold ServerPostOnly.extractHeadings, bind, fetch. 
  destruct (net w (fetches s) (Page u) None) as [resp|e]; [|exact I].
  destruct (ok resp); simpl; [|exact He].
  unfold text, lift. destruct (http_body resp) as [html|e]; [|exact I].
  destruct (cheerio_load w html); simpl; [apply Hd | exact I].
Qed.

(** C6: every extract that [extractHeadings] returns, and so the extract of
    every page that was fetched and parsed, keeps the caps: [page_title] and
    [h1] have at most 200 units, [h2] at most 20 items, [h3] at most 40, and
    every item at most 200 units.  This holds in both revisions. *)
Theorem extracts_within_caps (w : World) (u : jsstring) (s : St) (doc : document) :
  within_caps (Server.extract doc)
  /\ within_caps (ServerPostOnly.extract doc)
  /\ (exists p, fst (Server.extractHeadings w u s) = Val p /\ within_caps p)
  /\ match fst (ServerPostOnly.extractHeadings w u s) with
     | Val p => within_caps p
     | Exn _ => True
     end.
Proof.
  split; [apply server_extract_caps|].
  split; [apply post_only_extract_caps|].
  split.
  - apply server_extractHeadings_all; [apply empty_extract_caps | apply server_extract_caps].
  - apply post_only_extractHeadings_all;
      [apply empty_extract_caps | apply post_only_extract_caps].
Qed.

(** C10: in both revisions the [h2] and [h3] lists are the cleaned texts of
    the matched elements with the empty ones dropped before the cut to 20 or
    40 items, and so no string in them is empty. *)
Theorem headings_are_nonempty (w : World) (u : jsstring) (s : St) (doc : document) :
  (h2 (Server.extract doc) = kept_headings 20 "h2" doc
   /\ h3 (Server.extract doc) = kept_headings 40 "h3" doc)
  /\ (h2 (ServerPostOnly.extract doc) = kept_headings 20 "h2" doc
      /\ h3 (ServerPostOnly.extract doc) = kept_headings 40 "h3" doc)
  /\ headings_nonempty (Server.extract doc)
  /\ headings_nonempty (ServerPostOnly.extract doc)
  /\ (exists p, fst (Server.extractHeadings w u s) = Val p /\ headings_nonempty p)
  /\ match fst (ServerPostOnly.extractHeadings w u s) with
     | Val p => headings_nonempty p
     | Exn _ => True
     end.
Proof.
  assert (HA : forall d, headings_nonempty (Server.extract d)).
  { intros d. destruct (server_extract_headings d) as [E2 E3].
    unfold headings_nonempty. rewrite E2, E3. split; apply kept_headings_nonempty. }
  assert (HB : forall d, headings_nonempty (ServerPostOnly.extract d)).
  { intros d. destruct (post_only_extract_headings d) as [E2 E3].
    unfold headings_nonempty. rewrite E2, E3. split; apply kept_headings_nonempty. }
  split; [apply server_extract_headings|].
  split; [apply post_only_extract_headings|].
  split; [apply HA|]. split; [apply HB|]. split.
  - apply server_extractHeadings_all; [apply empty_extract_nonempty | exact HA].
  - apply post_only_extractHeadings_all; [apply empty_extract_nonempty | exact HB].
Qed.

(** ** Whitespace in the extract *)

(** In the extractor of lines 162-210, [h1] and every [h2] and [h3] item is
    a tidy text cut at 200 units. *)
Lemma server_headings_tidy (doc : document) :
  let cut_tidy := fun x => exists t, tidy t = true /\ x = slice_to 200 t in
  cut_tidy (h1 (Server.extract doc))
  /\ Forall cut_tidy (h2 (Server.extract doc))
  /\ Forall cut_tidy (h3 (Server.extract doc)).
Proof.
  intros cut_tidy.
  assert (Hk : forall limit tag, Forall cut_tidy (kept_headings limit tag doc)).
  { intros limit tag. unfold kept_headings. apply Forall_forall. intros x Hx.
    apply in_map_iff in Hx. destruct Hx as [t [<- Ht]]. exists t. split; [|reflexivity].
    assert (Hin : In t (filter (fun t => negb (is_empty t))
                          (map (fun e => trim (collapse e)) (select tag doc)))).
    { rewrite <- (firstn_skipn limit (filter _ _)). apply in_or_app. now left. }
    apply filter_In in Hin. destruct Hin as [Hin _].
    apply in_map_iff in Hin. destruct Hin as [e [<- _]]. apply trim_collapse_tidy. }
  destruct (server_extract_headings doc) as [E2 E3]. rewrite E2, E3.
  split; [|split; apply Hk].
  eexists. split; [apply trim_collapse_tidy | reflexivity].
Qed.

(** The cut comes after the trim, so a text of more than 200 units whose
    200th unit is a space is returned with that space at its end. *)
Lemma cut_can_end_in_space :
  let raw := repeat 97%N 199 ++ lit " b" in
  h2 (Server.extract [("h2"%string, raw)]) = [repeat 97%N 199 ++ lit " "]
  /\ ends_with_ws (repeat 97%N 199 ++ lit " ") = true.
Proof. split; vm_compute; reflexivity. Qed.

(** C7 at [page_title]: the title is trimmed but its whitespace runs are not
    collapsed, in both revisions, while [h1], [h2] and [h3] of lines 185-197
    are.  For a title with two spaces in a row and a line break inside, the
    extractor returns the title with both still in it. *)
Theorem page_title_keeps_whitespace_runs :
  first_text (select "title" sample_doc) = lit " My  note" ++ [10%N] ++ lit "page "
  /\ fst (Server.extractHeadings sample_world (lit "https://note.com/b/n/n2") st0)
     = Val (Server.extract sample_doc)
  /\ page_title (Server.extract sample_doc) = lit "My  note" ++ [10%N] ++ lit "page"
  /\ tidy (page_title (Server.extract sample_doc)) = false
  /\ trim (collapse (first_text (select "title" sample_doc))) = lit "My note page"
  /\ h1 (Server.extract sample_doc) = lit "Big heading"
  /\ page_title (ServerPostOnly.extract sample_doc) = lit "My  note" ++ [10%N] ++ lit "page"
  /\ h1 (ServerPostOnly.extract sample_doc) = lit "Big   heading".
Proof. repeat (split; [vm_compute; reflexivity|]). vm_compute; reflexivity. Qed.

(** ** Authentication and the query check *)

Lemma jsstring_eqb_neq (a b : jsstring) : a <> b -> jsstring_eqb a b = false.
Proof.
  intros H. apply not_true_iff_false. intros E. now apply jsstring_eqb_eq in E.
Qed.

(** The token both revisions read off a header [Bearer <token>]. *)
Lemma bearer_token_of_header (req : Request) (tok : jsstring) :
  headers_authorization req = Some (lit "Bearer " ++ tok) ->
  Server.bearer_token req = trim tok /\ ServerPostOnly.bearer_token req = tok.
Proof.
  intros H. unfold Server.bearer_token, ServerPostOnly.bearer_token.
  rewrite H. split; reflexivity.
Qed.

Lemma bearer_token_missing (req : Request) :
  headers_authorization req = None ->
  Server.bearer_token req = [] /\ ServerPostOnly.bearer_token req = [].
Proof.
  intros H. unfold Server.bearer_token, ServerPostOnly.bearer_token.
  rewrite H. split; reflexivity.
Qed.

Lemma server_rejects (env : Env) (req : Request) :
  or_empty (env_API_TOKEN env) <> [] ->
  headers_authorization req = None
  \/ Server.bearer_token req <> or_empty (env_API_TOKEN env) ->
  Server.requireAuth env req = Rejected (Server.unauthorized).
Proof.
  intros Hset Hbad. unfold Server.requireAuth, Server.API_TOKEN.
  apply is_empty_false in Hset. rewrite Hset.
  rewrite jsstring_eqb_neq; [reflexivity|].
  destruct Hbad as [Hnone | Hne]; [|exact Hne].
  destruct (bearer_token_missing req Hnone) as [-> _].
  apply is_empty_false in Hset. congruence.
Qed.






Lemma query_of_blank (w : World) (v : option json) :
  blank v -> Server.query_of w v = Val [] /\ ServerPostOnly.query_of w v = Val [].
Proof.
  unfold Server.query_of, ServerPostOnly.query_of, string_or_empty_trimmed.
  destruct v as [[| | |q| |]|]; simpl; try contradiction; [|split; reflexivity].
  intros H. destruct (is_empty q); simpl; [split; reflexivity|].
  now rewrite trim_all_ws.
Qed.

Lemma num_of_converts (w : World) (v : option json) :
  converts_to_number w v ->
  exists n, Server.num_of w v = Val n /\ ServerPostOnly.num_of w v = Val n.
Proof.
  unfold Server.num_of, ServerPostOnly.num_of, number_or_ten.
  destruct v as [x|]; [|intros _; eexists; split; reflexivity].
  destruct (truthy (Some x)); [|intros _; eexists; split; reflexivity].
  destruct x as [| [|] | n | t | items | props]; simpl;
    try (intros _; eexists; split; reflexivity).
  - intros [n H]. exists n. now rewrite H.
  - intros [n H]. exists n. now rewrite H.
Qed.

(** C9, as the code has it: when the request passes authentication, the
    search key is configured and [Number(num || 10)] does not throw (the
    [num] parameter is missing, a primitive, or an object or array with a
    primitive conversion), a query that is missing, empty or made of
    whitespace only is answered 400 with [{error: "query is required"}]
    before any network call: the log is left as it was.  This holds for the
    handler of lines 83-160 called with the empty query, for the GET and the
    POST route of lines 70-81 and for the POST route of lines 245-309. *)
Theorem blank_query_is_rejected (env : Env) (w : World) (req : Request) (s : St) :
  is_empty (or_empty (env_SERPAPI_KEY env)) = false ->
  (Server.requireAuth env req = Authorized ->
   forall numRaw,
     Server.handleNoteTopOutline env w req [] numRaw s
     = (Val {| status := 400; body := ErrorBody (lit "query is required") None None |}, s))
  /\ (Server.requireAuth env req = Authorized -> blank (query_q req) ->
      converts_to_number w (query_num req) ->
      Server.get_note_top_outline env w req s
      = (Val {| status := 400; body := ErrorBody (lit "query is required") None None |}, s))
  /\ (Server.requireAuth env req = Authorized -> blank (body_query req) ->
      converts_to_number w (body_num req) ->
      Server.post_note_top_outline env w req s
      = (Val {| status := 400; body := ErrorBody (lit "query is required") None None |}, s))
  /\ (ServerPostOnly.requireAuth env req = Authorized -> blank (body_query req) ->
      converts_to_number w (body_num req) ->
      ServerPostOnly.post_note_top_outline env w req s
      = (Val {| status := 400; body := ErrorBody (lit "query is required") None None |}, s)).
Proof.
  intros Hkey.
  assert (Hh : Server.requireAuth env req = Authorized ->
               forall numRaw,
                 Server.handleNoteTopOutline env w req [] numRaw s
                 = (Val {| status := 400;
                           body := ErrorBody (lit "query is required") None None |}, s)).
  { intros Hauth numRaw. unfold Server.handleNoteTopOutline, try_catch.
    rewrite Hauth. unfold Server.SERPAPI_KEY. rewrite Hkey. reflexivity. }
  split; [exact Hh|]. split; [|split]; intros Hauth Hblank Hnum.
  - unfold Server.get_note_top_outline.
    destruct (query_of_blank w _ Hblank) as [Hq _].
    destruct (num_of_converts w _ Hnum) as [n [Hn _]].
    unfold bind, lift. rewrite Hq, Hn. now apply Hh.
  - unfold Server.post_note_top_outline.
    destruct (query_of_blank w _ Hblank) as [Hq _].
    destruct (num_of_converts w _ Hnum) as [n [Hn _]].
    unfold bind, lift. rewrite Hq, Hn. now apply Hh.
  - unfold ServerPostOnly.post_note_top_outline. unfold try_catch at 1.
    rewrite Hauth. unfold ServerPostOnly.unset, ServerPostOnly.SERPAPI_KEY. rewrite Hkey.
    destruct (query_of_blank w _ Hblank) as [_ Hq].
    destruct (num_of_converts w _ Hnum) as [n [_ Hn]].
    unfold bind, lift. rewrite Hq, Hn. reflexivity.
Qed.

(** A query of three spaces on the handler and the three routes. *)
Lemma blank_query_is_rejected_witness :
  Server.handleNoteTopOutline sample_env sample_world blank_request [] (num 10) st0
  = (Val {| status := 400; body := ErrorBody (lit "query is required") None None |}, st0)
  /\ Server.get_note_top_outline sample_env sample_world blank_request st0
     = (Val {| status := 400; body := ErrorBody (lit "query is required") None None |}, st0)
  /\ Server.post_note_top_outline sample_env sample_world blank_request st0
     = (Val {| status := 400; body := ErrorBody (lit "query is required") None None |}, st0)
  /\ ServerPostOnly.post_note_top_outline sample_env sample_world blank_request st0
     = (Val {| status := 400; body := ErrorBody (lit "query is required") None None |}, st0).
Proof.
  assert (Hkey : is_empty (or_empty (env_SERPAPI_KEY sample_env)) = false)
    by reflexivity.
  pose proof (blank_query_is_rejected sample_env sample_world blank_request st0 Hkey)
    as [H [G [P B]]].
  split; [|split; [|split]].
  - apply H. reflexivity.
  - apply G; [reflexivity | reflexivity | exact I].
  - apply P; [reflexivity | reflexivity | exact I].
  - apply B; [reflexivity | reflexivity | exact I].
Defined.

(** When [Number(num || 10)] throws, the blank query is not what decides: in
    lines 245-309 the conversion runs inside the [try] and before the query
    check, and the answer is 500; in lines 77-81 it runs before the handler
    and outside any [try], and the route function throws before the handler
    is entered. *)
Lemma unconvertible_num_is_not_400 :
  blank (body_query odd_num_request)
  /\ ServerPostOnly.post_note_top_outline sample_env strict_world odd_num_request st0
     = (Val {| status := 500;
               body := ErrorBody (lit "Internal error") None
                         (Some (lit "Cannot convert object to primitive value")) |}, st0)
  /\ Server.post_note_top_outline sample_env strict_world odd_num_request st0
     = (Exn (lit "Cannot convert object to primitive value"), st0).
Proof. split; [|split]; vm_compute; reflexivity. Qed.

(** C9 as stated fails when the search key is not configured: the request
    with a whitespace-only query is answered 500, not 400, because the key is
    checked before the query. *)
Lemma blank_query_without_search_key :
  blank (query_q blank_request)
  /\ Server.get_note_top_outline no_key_env sample_world blank_request st0
     = (Val {| status := 500;
               body := ErrorBody (lit "SERPAPI_KEY is missing") None None |}, st0)
  /\ ServerPostOnly.post_note_top_outline no_key_env sample_world blank_request st0
     = (Val {| status := 500;
               body := ErrorBody (lit "SERPAPI_KEY is missing") None None |}, st0).
Proof. split; [|split]; vm_compute; reflexivity. Qed.

(** * Further properties of the handlers *)

(** ** The entries selected for extraction *)

Lemma clamp_within (numRaw : jsnum) : within_1_10 (Server.clamp numRaw).
Proof.
  destruct numRaw as [| | |q]; try (cbv; split; discriminate).
  rewrite clamp_finite.
  destruct (Qle_bool 1 q) eqn:H1; [|cbv; split; discriminate].
  destruct (Qle_bool q 10) eqn:H2; [|cbv; split; discriminate].
  simpl. split; now apply Qle_bool_iff.
Qed.

Lemma post_only_clamp_cases (numRaw : jsnum) :
  ServerPostOnly.clamp numRaw = NaN \/ within_1_10 (ServerPostOnly.clamp numRaw).
Proof.
  destruct numRaw as [| | |q]; [now left | right | right | right];
    try (cbv; split; discriminate).
  unfold ServerPostOnly.clamp, num. cbn [math_max].
  change (inject_Z 1) with 1%Q. change (inject_Z 10) with 10%Q.
  destruct (Qle_bool 1 q) eqn:H1; cbn [math_min]; [|cbv; split; discriminate].
  destruct (Qle_bool q 10) eqn:H2; [|cbv; split; discriminate].
  simpl. split; now apply Qle_bool_iff.
Qed.

Lemma array_slice_to_in (A : Type) (e : jsnum) (a : list A) (x : A) :
  In x (array_slice_to e a) -> In x a.
Proof.
  assert (Hf : forall n, In x (firstn n a) -> In x a).
  { intros n H. rewrite <- (firstn_skipn n a). apply in_or_app. now left. }
  destruct e as [| | |q]; simpl; try contradiction; [exact (fun H => H)|].
  destruct (truncate q <? 0)%Z; apply Hf.
Qed.

Lemma array_slice_to_bound (A : Type) (n : jsnum) (a : list A) :
  within_1_10 n -> List.length (array_slice_to n a) <= 10.
Proof.
  destruct n as [| | |q]; cbn [within_1_10]; try contradiction. intros [H1 H10].
  rewrite (array_slice_to_count a H1), length_firstn.
  assert (Hf : (Qfloor q <= 10)%Z).
  { change 10%Z with (Qfloor 10). now apply Qfloor_resp_le. }
  lia.
Qed.

Lemma map_index_forall (A B : Type) (f : A -> nat -> B) (P : A -> Prop) (Q : B -> Prop)
    (a : list A) :
  (forall r k, P r -> Q (f r k)) -> Forall P a -> forall i, Forall Q (map_index f i a).
Proof.
  intros H Ha. induction Ha as [|r l Hr _ IH]; intros i; simpl; constructor; auto.
Qed.

Lemma sliced_note_links (n : jsnum) (organic : list json) :
  Forall (fun r => is_note_link r = true) (array_slice_to n (filter is_note_link organic)).
Proof.
  apply Forall_forall. intros r H. apply array_slice_to_in in H.
  now apply filter_In in H.
Qed.

Lemma note_link_url (r : json) :
  is_note_link r = true ->
  includes (or_empty (as_string (opt_prop "link" r))) (lit "note.com/") = true.
Proof.
  unfold is_note_link. destruct (as_string (opt_prop "link" r)); [trivial | discriminate].
Qed.

Lemma top_is_bounded_and_on_note_server (numRaw : jsnum) (organic : list json) :
  List.length (Server.top_of (Server.clamp numRaw) organic) <= 10
  /\ Forall (fun it => includes (url it) (lit "note.com/") = true)
       (Server.top_of (Server.clamp numRaw) organic).
Proof.
  split.
  - unfold Server.top_of. rewrite map_index_length.
    apply array_slice_to_bound, clamp_within.
  - unfold Server.top_of.
    apply map_index_forall with (P := fun r => is_note_link r = true);
      [|apply sliced_note_links].
    intros r k Hr. simpl. now apply note_link_url.
Qed.

(** Whatever count is asked for and whatever the search returns, at most
    ten entries are selected, every selected URL contains ["note.com/"], and
    the ranks count up from 1.  In the revision of lines 215-356 a count that
    is NaN selects nothing. *)
Theorem top_is_bounded_and_on_note (numRaw : jsnum) (organic : list json) :
  (List.length (Server.top_of (Server.clamp numRaw) organic) <= 10
   /\ Forall (fun it => includes (url it) (lit "note.com/") = true)
        (Server.top_of (Server.clamp numRaw) organic)
   /\ map (@rank jsstring) (Server.top_of (Server.clamp numRaw) organic)
      = seq 1 (List.length (Server.top_of (Server.clamp numRaw) organic)))
  /\ (List.length (ServerPostOnly.top_of (ServerPostOnly.clamp numRaw) organic) <= 10
      /\ Forall (fun it => includes (url it) (lit "note.com/") = true)
           (ServerPostOnly.top_of (ServerPostOnly.clamp numRaw) organic)
      /\ map (@rank json) (ServerPostOnly.top_of (ServerPostOnly.clamp numRaw) organic)
         = seq 1 (List.length (ServerPostOnly.top_of (ServerPostOnly.clamp numRaw) organic)))
  /\ ServerPostOnly.top_of (ServerPostOnly.clamp NaN) organic = [].
Proof.
  split; [|split; [|reflexivity]].
  - split; [|split].
    + unfold Server.top_of. rewrite map_index_length.
      apply array_slice_to_bound, clamp_within.
    + unfold Server.top_of.
      apply map_index_forall with (P := fun r => is_note_link r = true);
        [|apply sliced_note_links].
      intros r k Hr. simpl. now apply note_link_url.
    + apply top_of_ranks.
  - split; [|split].
    + unfold ServerPostOnly.top_of. rewrite map_index_length.
      destruct (post_only_clamp_cases numRaw) as [-> | H];
        [simpl; lia | now apply array_slice_to_bound].
    + unfold ServerPostOnly.top_of.
      apply map_index_forall with (P := fun r => is_note_link r = true);
        [|apply sliced_note_links].
      intros r k Hr. simpl. now apply note_link_url.
    + unfold ServerPostOnly.top_of. rewrite map_index_length.
      erewrite map_index_field with (h := fun _ k => k + 1);
        [apply (map_index_rank _ 0) | reflexivity].
Qed.

(** ** The paths through the handler of lines 83-160 *)

Lemma handle_unfold (env : Env) (w : World) (req : Request) (query : jsstring)
    (numRaw : jsnum) (s : St) :
  Server.handleNoteTopOutline env w req query numRaw s =
  match Server.requireAuth env req with
  | Rejected sent => (Val sent, s)
  | Authorized =>
      if is_empty (Server.SERPAPI_KEY env)
      then (Val {| status := 500;
                   body := ErrorBody (lit "SERPAPI_KEY is missing") None None |}, s)
      else if is_empty query
      then (Val {| status := 400;
                   body := ErrorBody (lit "query is required") None None |}, s)
      else
        let s1 := after_fetch s (search_target env query numRaw) (Some 20000%N) in
        let internal := fun e =>
          {| status := 500%N;
             body := @ErrorBody jsstring (lit "Internal error") None (Some e) |} in
        match net w (fetches s) (search_target env query numRaw) (Some 20000%N) with
        | Exn e => (Val (internal e), s1)
        | Val resp =>
            if ok resp
            then
              match organic_results (json_or_empty w resp) with
              | Exn e => (Val (internal e), s1)
              | Val organic =>
                  let top := Server.top_of (Server.clamp numRaw) organic in
                  if Nat.eqb (List.length top) 0
                  then (Val {| status := 200;
                               body := NoResults (query ++ lit " site:note.com")
                                         (lit "No note.com results found in top organic results.") |},
                        s1)
                  else
                    match Server.extract_each w top [] s1 with
                    | (Val results, s2) =>
                        (Val {| status := 200;
                                body := Outline (query ++ lit " site:note.com") results |},
                         s2)
                    | (Exn e, s2) => (Val (internal e), s2)
                    end
              end
            else
              (Val {| status := 502;
                      body := ErrorBody (lit "SERP API failed") (Some (http_status resp))
                                (Some (slice_to 800
                                         (match http_body resp with
                                          | Val t => t
                                          | Exn _ => []
                                          end))) |},
               s1)
        end
  end.
Proof.
  destruct (Server.requireAuth env req) as [|sent] eqn:Hauth.
  2:{ unfold Server.handleNoteTopOutline, try_catch. now rewrite Hauth. }
  destruct (is_empty (Server.SERPAPI_KEY env)) eqn:Hkey.
  { unfold Server.handleNoteTopOutline, try_catch. now rewrite Hauth, Hkey. }
  destruct (is_empty query) eqn:Hq.
  { unfold Server.handleNoteTopOutline, try_catch. now rewrite Hauth, Hkey, Hq. }
  cbv zeta.
  destruct (net w (fetches s) (search_target env query numRaw) (Some 20000%N))
    as [resp|e] eqn:Hnet.
  2:{ unfold Server.handleNoteTopOutline, try_catch. rewrite Hauth, Hkey, Hq.
      unfold bind, Server.fetchWithTimeout, fetch.
      fold (search_target env query numRaw). now rewrite Hnet. }
  destruct (ok resp) eqn:Hok.
  - destruct (organic_results (json_or_empty w resp)) as [organic|e] eqn:Horg.
    + apply (handle_after_search env w req query numRaw s Hauth Hkey Hq Hnet Hok Horg).
    + unfold Server.handleNoteTopOutline. unfold try_catch at 1.
      rewrite Hauth, Hkey, Hq.
      unfold bind at 1. unfold Server.fetchWithTimeout, fetch.
      fold (search_target env query numRaw). rewrite Hnet, Hok.
      cbn [negb]. unfold bind at 1. rewrite json_or_empty_run.
      unfold bind at 1. unfold lift at 1. now rewrite Horg.
  - unfold Server.handleNoteTopOutline. unfold try_catch at 1.
    rewrite Hauth, Hkey, Hq.
    unfold bind at 1. unfold Server.fetchWithTimeout, fetch.
    fold (search_target env query numRaw). rewrite Hnet, Hok.
    cbn [negb]. unfold bind, try_catch, text, lift, ret.
    destruct (http_body resp); reflexivity.
Qed.

Lemma requireAuth_cases (env : Env) (req : Request) :
  Server.requireAuth env req = Authorized
  \/ Server.requireAuth env req
     = Rejected {| status := 401; body := ErrorBody (lit "Unauthorized") None None |}.
Proof.
  unfold Server.requireAuth.
  destruct (is_empty (Server.API_TOKEN env)); [now left|].
  destruct (jsstring_eqb _ _); [now left | now right].
Qed.

(** Every request to the handler of lines 83-160 gets a response, the
    handler itself never throws: the status is one of 200, 400, 401, 500 and
    502, and the body is an error body exactly when the status is not 200. *)
Theorem handler_always_responds (env : Env) (w : World) (req : Request)
    (query : jsstring) (numRaw : jsnum) (s : St) :
  exists r s',
    Server.handleNoteTopOutline env w req query numRaw s = (Val r, s')
    /\ In (status r) [200; 400; 401; 500; 502]%N
    /\ error_iff_not_200 r.
Proof.
  rewrite handle_unfold.
  destruct (requireAuth_cases env req) as [-> | ->].
  2:{ eexists _, _. split; [reflexivity|]. split; [simpl; tauto | discriminate]. }
  destruct (is_empty (Server.SERPAPI_KEY env)).
  { eexists _, _. split; [reflexivity|]. split; [simpl; tauto | discriminate]. }
  destruct (is_empty query).
  { eexists _, _. split; [reflexivity|]. split; [simpl; tauto | discriminate]. }
  cbv zeta.
  destruct (net w _ _ _) as [resp|e].
  2:{ eexists _, _. split; [reflexivity|]. split; [simpl; tauto | discriminate]. }
  destruct (ok resp).
  2:{ eexists _, _. split; [reflexivity|]. split; [simpl; tauto | discriminate]. }
  destruct (organic_results _) as [organic|e].
  2:{ eexists _, _. split; [reflexivity|]. split; [simpl; tauto | discriminate]. }
  destruct (Nat.eqb _ 0).
  { eexists _, _. split; [reflexivity|]. split; [simpl; tauto | reflexivity]. }
  destruct (extract_each_run w (Server.top_of (Server.clamp numRaw) organic) []
              (after_fetch s (search_target env query numRaw) (Some 20000%N)))
    as [added [s2 [Hrun _]]].
  rewrite Hrun. eexists _, _. split; [reflexivity|]. split; [simpl; tauto | reflexivity].
Qed.

(** What a request makes the handler of lines 83-160 do on the network:
    either nothing, or one search call followed by the page fetches.  The
    search call is made only with a configured key and a non-empty query, asks
    for a count between 1 and 10 and runs under the 20 s timeout; at most ten
    pages are fetched, each at a URL that contains ["note.com/"], each under
    the 20 s timeout, each followed by a sleep of 500 ms. *)
Theorem handler_network_calls (env : Env) (w : World) (req : Request)
    (query : jsstring) (numRaw : jsnum) (s : St) :
  exists r s',
    Server.handleNoteTopOutline env w req query numRaw s = (Val r, s')
    /\ (log s' = log s
        \/ exists top : list (SearchResult jsstring),
             log s' = log s
                      ++ Fetched (search_target env query numRaw) (Some 20000%N)
                         :: page_events (Some 20000%N) top
             /\ is_empty (Server.SERPAPI_KEY env) = false
             /\ is_empty query = false
             /\ within_1_10 (Server.clamp numRaw)
             /\ List.length top <= 10
             /\ Forall (fun it => includes (url it) (lit "note.com/") = true) top).
Proof.
  rewrite handle_unfold.
  destruct (Server.requireAuth env req).
  2:{ eexists _, _. split; [reflexivity | now left]. }
  destruct (is_empty (Server.SERPAPI_KEY env)) eqn:Hkey.
  { eexists _, _. split; [reflexivity | now left]. }
  destruct (is_empty query) eqn:Hq.
  { eexists _, _. split; [reflexivity | now left]. }
  cbv zeta.
  assert (Hnone : forall s1 : St,
            log s1 = log s ++ [Fetched (search_target env query numRaw) (Some 20000%N)] ->
            exists top : list (SearchResult jsstring),
              log s1 = log s
                       ++ Fetched (search_target env query numRaw) (Some 20000%N)
                          :: page_events (Some 20000%N) top
              /\ false = false /\ false = false
              /\ within_1_10 (Server.clamp numRaw)
              /\ List.length top <= 10
              /\ Forall (fun it => includes (url it) (lit "note.com/") = true) top).
  { intros s1 H. exists []. rewrite H.
    split; [reflexivity|]. split; [reflexivity|]. split; [reflexivity|].
    split; [apply clamp_within|]. split; [simpl; lia | constructor]. }
  destruct (net w _ _ _) as [resp|e].
  2:{ eexists _, _. split; [reflexivity|]. right. now apply Hnone. }
  destruct (ok resp).
  2:{ eexists _, _. split; [reflexivity|]. right. now apply Hnone. }
  destruct (organic_results _) as [organic|e].
  2:{ eexists _, _. split; [reflexivity|]. right. now apply Hnone. }
  destruct (Nat.eqb _ 0).
  { eexists _, _. split; [reflexivity|]. right. now apply Hnone. }
  destruct (top_is_bounded_and_on_note_server numRaw organic) as [Hlen Hurls].
  destruct (extract_each_run w (Server.top_of (Server.clamp numRaw) organic) []
              (after_fetch s (search_target env query numRaw) (Some 20000%N)))
    as [added [s2 [Hrun [_ [_ Hlog]]]]].
  rewrite Hrun. eexists _, _. split; [reflexivity|]. right.
  exists (Server.top_of (Server.clamp numRaw) organic).
  split; [rewrite Hlog; simpl; now rewrite <- app_assoc|].
  split; [reflexivity|]. split; [reflexivity|].
  split; [apply clamp_within|]. now split.
Qed.

(** ** The paths through the handler of lines 245-309 *)

Lemma post_only_unfold (env : Env) (w : World) (req : Request) (s : St) :
  ServerPostOnly.post_note_top_outline env w req s =
  match ServerPostOnly.requireAuth env req with
  | Rejected sent => (Val sent, s)
  | Authorized =>
      if ServerPostOnly.unset (ServerPostOnly.SERPAPI_KEY env)
      then (Val {| status := 500;
                   body := ErrorBody (lit "SERPAPI_KEY is missing") None None |}, s)
      else
        match ServerPostOnly.query_of w (body_query req) with
        | Exn e => (Val (internal_error json e), s)
        | Val query =>
            match ServerPostOnly.num_of w (body_num req) with
            | Exn e => (Val (internal_error json e), s)
            | Val numRaw =>
                if is_empty query
                then (Val {| status := 400;
                             body := ErrorBody (lit "query is required") None None |}, s)
                else
                  let s1 := after_fetch s (post_only_target env query numRaw) None in
                  match net w (fetches s) (post_only_target env query numRaw) None with
                  | Exn e => (Val (internal_error json e), s1)
                  | Val resp =>
                      if ok resp
                      then
                        match http_body resp with
                        | Exn e => (Val (internal_error json e), s1)
                        | Val b =>
                            match json_parse w b with
                            | Exn e => (Val (internal_error json e), s1)
                            | Val serpJson =>
                                match organic_results serpJson with
                                | Exn e => (Val (internal_error json e), s1)
                                | Val organic =>
                                    match ServerPostOnly.extract_each w
                                            (ServerPostOnly.top_of
                                               (ServerPostOnly.clamp numRaw) organic)
                                            [] s1 with
                                    | (Val results, s2) =>
                                        (Val {| status := 200;
                                                body := Outline
                                                          (query ++ lit " site:note.com")
                                                          results |}, s2)
                                    | (Exn e, s2) => (Val (internal_error json e), s2)
                                    end
                                end
                            end
                        end
                      else
                        match http_body resp with
                        | Exn e => (Val (internal_error json e), s1)
                        | Val t =>
                            (Val {| status := 502;
                                    body := ErrorBody (lit "SERP API failed") None
                                              (Some (slice_to 500 t)) |}, s1)
                        end
                  end
            end
        end
  end.
Proof.
  unfold ServerPostOnly.post_note_top_outline. unfold try_catch at 1.
  destruct (ServerPostOnly.requireAuth env req) as [|sent]; [|reflexivity].
  destruct (ServerPostOnly.unset (ServerPostOnly.SERPAPI_KEY env)); [reflexivity|].
  unfold bind at 1. unfold lift at 1.
  destruct (ServerPostOnly.query_of w (body_query req)) as [query|e]; [|reflexivity].
  unfold bind at 1. unfold lift at 1.
  destruct (ServerPostOnly.num_of w (body_num req)) as [numRaw|e]; [|reflexivity].
  cbv zeta.
  destruct (is_empty query); [reflexivity|].
  unfold bind at 1. unfold fetch. fold (post_only_target env query numRaw).
  destruct (net w (fetches s) (post_only_target env query numRaw) None) as [resp|e];
    [|reflexivity].
  destruct (ok resp); cbn [negb].
  - unfold bind at 1. unfold json_of, bind at 1, text, lift.
    destruct (http_body resp) as [b|e]; [|reflexivity].
    destruct (json_parse w b) as [serpJson|e]; [|reflexivity].
    unfold bind at 1.
    destruct (organic_results serpJson) as [organic|e]; [|reflexivity].
    unfold bind at 1.
    destruct (ServerPostOnly.extract_each w _ [] _) as [[results|e] s2]; reflexivity.
  - unfold bind, text, lift, ret.
    destruct (http_body resp); reflexivity.
Qed.

Lemma post_only_requireAuth_cases (env : Env) (req : Request) :
  ServerPostOnly.requireAuth env req = Authorized
  \/ ServerPostOnly.requireAuth env req
     = Rejected {| status := 401; body := ErrorBody (lit "Unauthorized") None None |}.
Proof.
  unfold ServerPostOnly.requireAuth.
  destruct (ServerPostOnly.unset (ServerPostOnly.API_TOKEN env)); [now left|].
  destruct (jsstring_eqb _ _); [now left | now right].
Qed.

(** The handler of lines 245-309 answers every request as well, also when
    [String(query)] or [Number(num)] throws at lines 253-254, which happens
    inside its [try]: its status is one of 200, 400, 401, 500 and 502, and the
    body is an error body exactly when the status is not 200. *)
Theorem post_only_always_responds (env : Env) (w : World) (req : Request) (s : St) :
  exists r s',
    ServerPostOnly.post_note_top_outline env w req s = (Val r, s')
    /\ In (status r) [200; 400; 401; 500; 502]%N
    /\ error_iff_not_200 r.
Proof.
  rewrite post_only_unfold.
  destruct (post_only_requireAuth_cases env req) as [-> | ->].
  2:{ eexists _, _. split; [reflexivity|]. split; [simpl; tauto | discriminate]. }
  destruct (ServerPostOnly.unset _).
  { eexists _, _. split; [reflexivity|]. split; [simpl; tauto | discriminate]. }
  destruct (ServerPostOnly.query_of w (body_query req)) as [query|e].
  2:{ eexists _, _. split; [reflexivity|]. split; [simpl; tauto | discriminate]. }
  destruct (ServerPostOnly.num_of w (body_num req)) as [numRaw|e].
  2:{ eexists _, _. split; [reflexivity|]. split; [simpl; tauto | discriminate]. }
  destruct (is_empty _).
  { eexists _, _. split; [reflexivity|]. split; [simpl; tauto | discriminate]. }
  cbv zeta.
  destruct (net w _ _ _) as [resp|e].
  2:{ eexists _, _. split; [reflexivity|]. split; [simpl; tauto | discriminate]. }
  destruct (ok resp).
  - destruct (http_body resp) as [b|e].
    2:{ eexists _, _. split; [reflexivity|]. split; [simpl; tauto | discriminate]. }
    destruct (json_parse w b) as [j|e].
    2:{ eexists _, _. split; [reflexivity|]. split; [simpl; tauto | discriminate]. }
    destruct (organic_results j) as [organic|e].
    2:{ eexists _, _. split; [reflexivity|]. split; [simpl; tauto | discriminate]. }
    destruct (ServerPostOnly.extract_each w _ [] _) as [[results|e] s2].
    + eexists _, _. split; [reflexivity|]. split; [simpl; tauto | reflexivity].
    + eexists _, _. split; [reflexivity|]. split; [simpl; tauto | discriminate].
  - destruct (http_body resp) as [t|e].
    + eexists _, _. split; [reflexivity|]. split; [simpl; tauto | discriminate].
    + eexists _, _. split; [reflexivity|]. split; [simpl; tauto | discriminate].
Qed.

(** ** Failures before and during the search *)

(** A request that passes authentication while no search key is configured
    is answered 500 [{error: "SERPAPI_KEY is missing"}] without any network
    call, whatever its query; in both revisions. *)
Theorem missing_search_key_is_500 (env : Env) (w : World) (req : Request)
    (query : jsstring) (numRaw : jsnum) (s : St) :
  or_empty (env_SERPAPI_KEY env) = [] ->
  (Server.requireAuth env req = Authorized ->
   Server.handleNoteTopOutline env w req query numRaw s
   = (Val {| status := 500; body := ErrorBody (lit "SERPAPI_KEY is missing") None None |},
      s))
  /\ (ServerPostOnly.requireAuth env req = Authorized ->
      ServerPostOnly.post_note_top_outline env w req s
      = (Val {| status := 500;
                body := ErrorBody (lit "SERPAPI_KEY is missing") None None |}, s)).
Proof.
  intros Hkey. split; intros Hauth.
  - rewrite handle_unfold, Hauth. unfold Server.SERPAPI_KEY. now rewrite Hkey.
  - rewrite post_only_unfold, Hauth.
    unfold ServerPostOnly.unset, ServerPostOnly.SERPAPI_KEY. now rewrite Hkey.
Qed.

(** With no key and no token configured, any request gets the 500. *)
Lemma missing_search_key_is_500_witness :
  Server.handleNoteTopOutline no_key_env sample_world sample_request
    (lit "productivity tips") (num 3) st0
  = (Val {| status := 500; body := ErrorBody (lit "SERPAPI_KEY is missing") None None |},
     st0)
  /\ ServerPostOnly.post_note_top_outline no_key_env sample_world sample_request st0
     = (Val {| status := 500;
               body := ErrorBody (lit "SERPAPI_KEY is missing") None None |}, st0).
Proof.
  assert (Hkey : or_empty (env_SERPAPI_KEY no_key_env) = []) by reflexivity.
  pose proof (missing_search_key_is_500 no_key_env sample_world sample_request
                (lit "productivity tips") (num 3) st0 Hkey) as [A B].
  split; [apply A | apply B]; reflexivity.
Defined.

(** In the handler of lines 83-160, a search response that is not 2xx is
    answered 502 with the upstream status and, as detail, the first 800 units
    of the upstream body (the empty string when the body cannot be read);
    nothing is fetched after the search call. *)
Theorem upstream_failure_is_502 (env : Env) (w : World) (req : Request)
    (query : jsstring) (numRaw : jsnum) (s : St) (resp : HttpResponse) :
  Server.requireAuth env req = Authorized ->
  is_empty (Server.SERPAPI_KEY env) = false ->
  is_empty query = false ->
  net w (fetches s) (search_target env query numRaw) (Some 20000%N) = Val resp ->
  ok resp = false ->
  exists detail,
    Server.handleNoteTopOutline env w req query numRaw s
    = (Val {| status := 502;
              body := ErrorBody (lit "SERP API failed") (Some (http_status resp))
                        (Some detail) |},
       after_fetch s (search_target env query numRaw) (Some 20000%N))
    /\ List.length detail <= 800
    /\ match http_body resp with
       | Val t => detail = firstn 800 t
       | Exn _ => detail = []
       end.
Proof.
  intros Hauth Hkey Hq Hnet Hok.
  rewrite handle_unfold, Hauth, Hkey, Hq. cbv zeta. rewrite Hnet, Hok.
  eexists. split; [reflexivity|]. split; [apply slice_to_length|].
  destruct (http_body resp); reflexivity.
Qed.

Lemma upstream_failure_is_502_witness :
  Server.handleNoteTopOutline sample_env (world_of (Val unavailable) (Val JNull))
    sample_request (lit "productivity tips") (num 3) st0
  = (Val {| status := 502;
            body := ErrorBody (lit "SERP API failed") (Some 503%N)
                      (Some (lit "upstream unavailable")) |},
     after_fetch st0 (search_target sample_env (lit "productivity tips") (num 3))
       (Some 20000%N)).
Proof.
  assert (Hauth : Server.requireAuth sample_env sample_request = Authorized)
    by reflexivity.
  assert (Hkey : is_empty (Server.SERPAPI_KEY sample_env) = false) by reflexivity.
  assert (Hq : is_empty (lit "productivity tips") = false) by reflexivity.
  assert (Hnet : net (world_of (Val unavailable) (Val JNull)) (fetches st0)
                   (search_target sample_env (lit "productivity tips") (num 3))
                   (Some 20000%N) = Val unavailable) by reflexivity.
  assert (Hok : ok unavailable = false) by reflexivity.
  destruct (upstream_failure_is_502 sample_env (world_of (Val unavailable) (Val JNull))
              sample_request (lit "productivity tips") (num 3) st0
              Hauth Hkey Hq Hnet Hok) as [detail [Hrun [_ Hd]]].
  simpl in Hd. rewrite Hd in Hrun. exact Hrun.
Defined.

(** In the handler of lines 83-160, a search call that rejects (network
    error, abort after 20 s) is answered 500 [{error: "Internal error"}] with
    the error's message as detail, and nothing else is fetched. *)
Theorem search_rejection_is_500 (env : Env) (w : World) (req : Request)
    (query : jsstring) (numRaw : jsnum) (s : St) (e : jsstring) :
  Server.requireAuth env req = Authorized ->
  is_empty (Server.SERPAPI_KEY env) = false ->
  is_empty query = false ->
  net w (fetches s) (search_target env query numRaw) (Some 20000%N) = Exn e ->
  Server.handleNoteTopOutline env w req query numRaw s
  = (Val {| status := 500; body := ErrorBody (lit "Internal error") None (Some e) |},
     after_fetch s (search_target env query numRaw) (Some 20000%N)).
Proof.
  intros Hauth Hkey Hq Hnet.
  rewrite handle_unfold, Hauth, Hkey, Hq. cbv zeta. now rewrite Hnet.
Qed.

Lemma search_rejection_is_500_witness :
  Server.handleNoteTopOutline sample_env (world_of (Exn (lit "aborted")) (Val JNull))
    sample_request (lit "productivity tips") (num 3) st0
  = (Val {| status := 500;
            body := ErrorBody (lit "Internal error") None (Some (lit "aborted")) |},
     after_fetch st0 (search_target sample_env (lit "productivity tips") (num 3))
       (Some 20000%N)).
Proof.
  apply search_rejection_is_500; reflexivity.
Defined.

(** In the handler of lines 83-160, a 2xx search response whose body cannot
    be read or is not JSON counts as a search without results: the answer is
    200 with no results and the note, not an error. *)
Theorem unparsable_search_body_is_no_results (env : Env) (w : World) (req : Request)
    (query : jsstring) (numRaw : jsnum) (s : St) (resp : HttpResponse) :
  Server.requireAuth env req = Authorized ->
  is_empty (Server.SERPAPI_KEY env) = false ->
  is_empty query = false ->
  net w (fetches s) (search_target env query numRaw) (Some 20000%N) = Val resp ->
  ok resp = true ->
  (exists e, http_body resp = Exn e)
  \/ (exists b e, http_body resp = Val b /\ json_parse w b = Exn e) ->
  Server.handleNoteTopOutline env w req query numRaw s
  = (Val {| status := 200;
            body := NoResults (query ++ lit " site:note.com")
                      (lit "No note.com results found in top organic results.") |},
     after_fetch s (search_target env query numRaw) (Some 20000%N)).
Proof.
  intros Hauth Hkey Hq Hnet Hok Hbad.
  assert (Hj : json_or_empty w resp = JObj []).
  { unfold json_or_empty. destruct Hbad as [[e ->] | [b [e [-> ->]]]]; reflexivity. }
  rewrite handle_unfold, Hauth, Hkey, Hq. cbv zeta. rewrite Hnet, Hok, Hj.
  change (organic_results (JObj [])) with (Val (@nil json)). cbv iota.
  now rewrite (top_of_empty (Server.clamp numRaw) [] eq_refl).
Qed.

Lemma unparsable_search_body_is_no_results_witness :
  Server.handleNoteTopOutline sample_env
    (world_of (Val page_ok) (Exn (lit "Unexpected token <")))
    sample_request (lit "productivity tips") (num 3) st0
  = (Val {| status := 200;
            body := NoResults (lit "productivity tips" ++ lit " site:note.com")
                      (lit "No note.com results found in top organic results.") |},
     after_fetch st0 (search_target sample_env (lit "productivity tips") (num 3))
       (Some 20000%N)).
Proof.
  apply unparsable_search_body_is_no_results with (resp := page_ok);
    try reflexivity.
  right. exists (lit "<html>"), (lit "Unexpected token <"). split; reflexivity.
Defined.

(** In the handler of lines 245-309, once the query and the count have been
    read off the body and the query is not empty, every failure of the search
    step is answered 500 [{error: "Internal error"}] with the error's
    message: a search call that rejects, a response whose body cannot be
    read, and a 2xx response whose body is not JSON.  Only the search call
    was made. *)
Theorem post_only_search_failure_is_500 (env : Env) (w : World) (req : Request)
    (query : jsstring) (numRaw : jsnum) (s : St) (e : jsstring) :
  ServerPostOnly.requireAuth env req = Authorized ->
  ServerPostOnly.unset (ServerPostOnly.SERPAPI_KEY env) = false ->
  ServerPostOnly.query_of w (body_query req) = Val query ->
  ServerPostOnly.num_of w (body_num req) = Val numRaw ->
  is_empty query = false ->
  net w (fetches s) (post_only_target env query numRaw) None = Exn e
  \/ (exists resp, net w (fetches s) (post_only_target env query numRaw) None = Val resp
                   /\ http_body resp = Exn e)
  \/ (exists resp b, net w (fetches s) (post_only_target env query numRaw) None = Val resp
                     /\ ok resp = true
                     /\ http_body resp = Val b
                     /\ json_parse w b = Exn e) ->
  ServerPostOnly.post_note_top_outline env w req s
  = (Val {| status := 500; body := ErrorBody (lit "Internal error") None (Some e) |},
     after_fetch s (post_only_target env query numRaw) None).
Proof.
  intros Hauth Hkey Hquery Hnum Hq Hbad.
  rewrite post_only_unfold, Hauth, Hkey, Hquery, Hnum, Hq. cbv zeta.
  destruct Hbad as [-> | [[resp [-> Hb]] | [resp [b [-> [Hok [Hb Hp]]]]]]].
  - reflexivity.
  - rewrite Hb. destruct (ok resp); reflexivity.
  - now rewrite Hok, Hb, Hp.
Qed.

Lemma post_only_search_failure_is_500_witness :
  ServerPostOnly.post_note_top_outline sample_env
    (world_of (Val page_ok) (Exn (lit "Unexpected token <"))) sample_request st0
  = (Val {| status := 500;
            body := ErrorBody (lit "Internal error") None
                      (Some (lit "Unexpected token <")) |},
     after_fetch st0 (post_only_target sample_env (lit "productivity tips") (num 3))
       None).
Proof.
  apply post_only_search_failure_is_500; try reflexivity.
  right. right. exists page_ok, (lit "<html>"). repeat split.
Defined.

(** ** Cleaning of heading texts *)

Lemma collapse_from_fixed (t : jsstring) :
  forall b, single_spaced b t = true -> collapse_from b t = t.
Proof.
  induction t as [|c t IH]; intros b; simpl; [reflexivity|].
  destruct (is_ws c).
  - rewrite !andb_true_iff, N.eqb_eq, negb_true_iff. intros [[-> ->] H].
    now rewrite (IH true H).
  - intros H. now rewrite (IH false H).
Qed.

Lemma trimStart_fixed (t : jsstring) : starts_with_ws t = false -> trimStart t = t.
Proof. destruct t as [|c t]; simpl; [reflexivity|]. now intros ->. Qed.

Lemma trimEnd_fixed (t : jsstring) : ends_with_ws t = false -> trimEnd t = t.
Proof.
  induction t as [|c t IH]; [reflexivity|].
  destruct t as [|d t].
  - simpl. now intros ->.
  - intros H. change (ends_with_ws (d :: t) = false) in H.
    change (trimEnd (c :: d :: t))
      with (match trimEnd (d :: t) with
            | [] => if is_ws c then [] else [c]
            | x :: t' => c :: x :: t'
            end).
    now rewrite (IH H).
Qed.

Lemma tidy_fixed (t : jsstring) : tidy t = true -> trim (collapse t) = t.
Proof.
  unfold tidy. rewrite !andb_true_iff, !negb_true_iff. intros [[H1 H2] H3].
  unfold collapse, trim. rewrite (collapse_from_fixed _ _ H1), (trimStart_fixed _ H2).
  now apply trimEnd_fixed.
Qed.

Lemma trim_fixed (t : jsstring) : trim (trim t) = trim t.
Proof.
  unfold trim at 1.
  rewrite trimStart_fixed by (unfold trim; apply trimEnd_starts, trimStart_starts).
  apply trimEnd_fixed. unfold trim. apply trimEnd_ends.
Qed.

Lemma each_heading_plain (l : list jsstring) :
  Forall (fun t => tidy t = true /\ t <> []) l -> each_heading l = l.
Proof.
  rewrite each_heading_filter.
  induction 1 as [|t l [Ht Hne] _ IH]; simpl; [reflexivity|].
  rewrite (tidy_fixed _ Ht). apply is_empty_false in Hne. rewrite Hne. simpl.
  now rewrite IH.
Qed.

Lemma each_heading_tidy (l : list jsstring) :
  Forall (fun t => tidy t = true /\ t <> []) (each_heading l).
Proof.
  rewrite each_heading_filter. apply Forall_forall. intros t Ht.
  apply filter_In in Ht. destruct Ht as [Hin Hne].
  apply in_map_iff in Hin. destruct Hin as [e [<- _]].
  split; [apply trim_collapse_tidy|].
  apply is_empty_false. now apply negb_true_iff in Hne.
Qed.

Lemma map_slice_short (n : nat) (l : list jsstring) :
  Forall (fun t => List.length t <= n) l -> map (slice_to n) l = l.
Proof.
  induction 1 as [|t l Ht _ IH]; simpl; [reflexivity|].
  unfold slice_to at 1. now rewrite firstn_all2, IH.
Qed.

(** Cleaning a heading text is idempotent: a text that went through
    [replace(/\s+/g, " ").trim()] comes out of it unchanged, and so does a
    list of headings that went through the [each] loop. *)
Theorem cleaning_is_idempotent (s : jsstring) (matched : list jsstring) :
  trim (collapse (trim (collapse s))) = trim (collapse s)
  /\ each_heading (each_heading matched) = each_heading matched.
Proof.
  split.
  - apply tidy_fixed, trim_collapse_tidy.
  - apply each_heading_plain, each_heading_tidy.
Qed.

(** Headings that need no cleaning come back verbatim: when the [h2] (or
    [h3]) texts of a page are tidy, non-empty, at most 200 units long and at
    most 20 (or 40) in number, the list returned is exactly the list of
    those texts in document order.  Both revisions. *)
Theorem plain_headings_are_kept (doc : document) :
  (Forall plain_heading (select "h2" doc) -> List.length (select "h2" doc) <= 20 ->
   h2 (Server.extract doc) = select "h2" doc
   /\ h2 (ServerPostOnly.extract doc) = select "h2" doc)
  /\ (Forall plain_heading (select "h3" doc) -> List.length (select "h3" doc) <= 40 ->
      h3 (Server.extract doc) = select "h3" doc
      /\ h3 (ServerPostOnly.extract doc) = select "h3" doc).
Proof.
  assert (Hk : forall limit tag,
             Forall plain_heading (select tag doc) ->
             List.length (select tag doc) <= limit ->
             kept_headings limit tag doc = select tag doc).
  { intros limit tag Hp Hlen. unfold kept_headings.
    rewrite <- each_heading_filter, each_heading_plain.
    - rewrite firstn_all2 by exact Hlen. apply map_slice_short.
      apply Forall_impl with (2 := Hp). now intros t [_ [_ Ht]].
    - apply Forall_impl with (2 := Hp). intros t [H1 [H2 _]]. now split. }
  destruct (server_extract_headings doc) as [A2 A3].
  destruct (post_only_extract_headings doc) as [B2 B3].
  split; intros Hp Hlen.
  - rewrite A2, B2. split; now apply Hk.
  - rewrite A3, B3. split; now apply Hk.
Qed.

Lemma plain_headings_are_kept_witness :
  h2 (Server.extract plain_doc) = [lit "Getting started"; lit "Going further"]
  /\ h3 (ServerPostOnly.extract plain_doc) = [lit "Step 1"].
Proof.
  destruct (plain_headings_are_kept plain_doc) as [H2 H3].
  split.
  - apply H2; [|simpl; lia].
    repeat constructor; try discriminate; simpl; lia.
  - apply H3; [|simpl; lia].
    repeat constructor; try discriminate; simpl; lia.
Defined.

(** In the extractor of lines 162-210, [h1] and every [h2] and [h3] item is
    single-spaced and has no leading whitespace; it can end in whitespace
    only when it was cut, that is when it is exactly 200 units long.  The
    same holds for the [h2] and [h3] items of lines 311-348. *)
Theorem returned_headings_are_tidy_unless_cut (doc : document) :
  tidy_unless_cut (h1 (Server.extract doc))
  /\ Forall tidy_unless_cut (h2 (Server.extract doc))
  /\ Forall tidy_unless_cut (h3 (Server.extract doc))
  /\ Forall tidy_unless_cut (h2 (ServerPostOnly.extract doc))
  /\ Forall tidy_unless_cut (h3 (ServerPostOnly.extract doc)).
Proof.
  assert (Hcut : forall t, tidy t = true -> tidy_unless_cut (slice_to 200 t)).
  { intros t Ht. destruct (slice_to_tidy 200 t Ht) as [H1 [H2 H3]].
    split; [exact H1|]. split; [apply H2; lia|].
    destruct (ends_with_ws (slice_to 200 t)); [right; now apply H3 | now left]. }
  assert (Hk : forall limit tag, Forall tidy_unless_cut (kept_headings limit tag doc)).
  { intros limit tag. unfold kept_headings. rewrite <- each_heading_filter.
    apply Forall_forall. intros x Hx. apply in_map_iff in Hx.
    destruct Hx as [t [<- Ht]]. apply Hcut.
    assert (Hin : In t (each_heading (select tag doc))).
    { rewrite <- (firstn_skipn limit (each_heading _)). apply in_or_app. now left. }
    pose proof (each_heading_tidy (select tag doc)) as Hall.
    rewrite Forall_forall in Hall. now apply Hall. }
  destruct (server_extract_headings doc) as [A2 A3].
  destruct (post_only_extract_headings doc) as [B2 B3].
  rewrite A2, A3, B2, B3.
  split; [apply Hcut, trim_collapse_tidy|]. repeat split; apply Hk.
Qed.

Lemma collapse_from_all_ws (s : jsstring) :
  forallb is_ws s = true -> forall b, forallb is_ws (collapse_from b s) = true.
Proof.
  induction s as [|c s IH]; simpl; [reflexivity|].
  rewrite andb_true_iff. intros [Hc H] b. rewrite Hc.
  destruct b; simpl; now rewrite ?IH.
Qed.

Lemma clean_blank (s : jsstring) : forallb is_ws s = true -> trim (collapse s) = [].
Proof. intros H. apply trim_all_ws. now apply collapse_from_all_ws. Qed.

Lemma each_heading_blank (l : list jsstring) :
  Forall (fun t => forallb is_ws t = true) l -> each_heading l = [].
Proof.
  rewrite each_heading_filter.
  induction 1 as [|t l Ht _ IH]; simpl; [reflexivity|].
  now rewrite (clean_blank _ Ht).
Qed.

(** A page that was fetched and parsed but has no title and no heading, or
    only blank ones, gives the all-empty extract: the caller cannot tell it
    from a page that could not be fetched.  Both revisions. *)
Theorem blank_page_gives_empty_extract (doc : document) :
  (forall tag, In tag heading_tags ->
               Forall (fun t => forallb is_ws t = true) (select tag doc)) ->
  Server.extract doc = empty_extract /\ ServerPostOnly.extract doc = empty_extract.
Proof.
  intros H.
  assert (Hfirst : forall tag, In tag heading_tags ->
                     forallb is_ws (first_text (select tag doc)) = true).
  { intros tag Hin. specialize (H tag Hin).
    destruct (select tag doc); [reflexivity|]. now inversion H. }
  assert (Ht : In "title"%string heading_tags) by (simpl; tauto).
  assert (H1 : In "h1"%string heading_tags) by (simpl; tauto).
  assert (H2 : In "h2"%string heading_tags) by (simpl; tauto).
  assert (H3 : In "h3"%string heading_tags) by (simpl; tauto).
  unfold Server.extract, ServerPostOnly.extract.
  rewrite (each_heading_blank (H _ H2)), (each_heading_blank (H _ H3)).
  rewrite (trim_all_ws _ (Hfirst _ Ht)), (trim_all_ws _ (Hfirst _ H1)).
  rewrite (clean_blank _ (Hfirst _ H1)). split; reflexivity.
Qed.

Lemma blank_page_gives_empty_extract_witness :
  Server.extract blank_doc = empty_extract
  /\ ServerPostOnly.extract blank_doc = empty_extract.
Proof.
  apply blank_page_gives_empty_extract.
  intros tag [<- | [<- | [<- | [<- | []]]]]; repeat constructor.
Defined.

(** ** Authentication *)

(** A request that presents the configured token is authorized.  In lines
    14-25 the text after ["Bearer "] is trimmed before the comparison, in
    lines 227-236 it is compared as it is. *)
Theorem right_token_is_authorized (env : Env) (req : Request) (presented : jsstring) :
  headers_authorization req = Some (lit "Bearer " ++ presented) ->
  (trim presented = or_empty (env_API_TOKEN env) ->
   Server.requireAuth env req = Authorized)
  /\ (presented = or_empty (env_API_TOKEN env) ->
      ServerPostOnly.requireAuth env req = Authorized).
Proof.
  intros Hh. destruct (@bearer_token_of_header req presented Hh) as [HA HB].
  split; intros Ht.
  - unfold Server.requireAuth, Server.API_TOKEN.
    destruct (is_empty (or_empty (env_API_TOKEN env))); [reflexivity|].
    rewrite HA, Ht.
    now rewrite (proj2 (jsstring_eqb_eq _ _) eq_refl).
  - unfold ServerPostOnly.requireAuth, ServerPostOnly.unset, ServerPostOnly.API_TOKEN.
    destruct (is_empty (or_empty (env_API_TOKEN env))); [reflexivity|].
    rewrite HB, Ht.
    now rewrite (proj2 (jsstring_eqb_eq _ _) eq_refl).
Qed.

(** The token with spaces around it passes the trimming revision. *)
Lemma right_token_is_authorized_witness :
  Server.requireAuth token_env padded_token_request = Authorized.
Proof.
  apply (proj1 (right_token_is_authorized token_env padded_token_request
                  (presented := lit "  s3cret ") eq_refl)).
  reflexivity.
Defined.

(** In lines 14-25 the presented token is trimmed but the configured one is
    not: when the configured token starts or ends with whitespace, no request
    can be authorized. *)
Theorem untrimmed_token_locks_out (env : Env) (req : Request) :
  or_empty (env_API_TOKEN env) <> [] ->
  trim (or_empty (env_API_TOKEN env)) <> or_empty (env_API_TOKEN env) ->
  Server.requireAuth env req
  = Rejected {| status := 401; body := ErrorBody (lit "Unauthorized") None None |}.
Proof.
  intros Hset Hpad. apply server_rejects; [exact Hset|]. right.
  unfold Server.bearer_token.
  destruct (startsWith _ _).
  - intros H. apply Hpad. rewrite <- H. apply trim_fixed.
  - congruence.
Qed.

Lemma untrimmed_token_locks_out_witness :
  Server.requireAuth
    {| env_SERPAPI_KEY := Some (lit "key"); env_API_TOKEN := Some (lit "s3cret ") |}
    {| headers_authorization := Some (lit "Bearer s3cret ");
       query_q := None; query_num := None; body_query := None; body_num := None |}
  = Rejected {| status := 401; body := ErrorBody (lit "Unauthorized") None None |}.
Proof.
  apply untrimmed_token_locks_out; vm_compute; discriminate.
Defined.

(** ** The count of the routes *)

(** The [num] parameter of the GET and POST routes of lines 70-81.  When
    [Number(num || 10)] returns, the count used lies between 1 and 10, and a
    parameter that is missing or falsy (the empty string, [null], [false],
    the number 0) gives the default 10.  The conversion can throw only for an
    object or an array; it runs before the handler and outside any [try], so
    the route function then throws: the handler is never entered, so it
    answers nothing and nothing is fetched. *)
Theorem route_count_is_within_bounds (env : Env) (w : World) (req : Request) (s : St)
    (v : option json) :
  match Server.num_of w v with
  | Val numRaw => within_1_10 (Server.clamp numRaw)
  | Exn _ =>
      match v with
      | Some (JArr _) => True
      | Some (JObj _) => True
      | _ => False
      end
  end
  /\ (if truthy v then True else Server.num_of w v = Val (num 10))
  /\ (forall query e,
        Server.query_of w (query_q req) = Val query ->
        Server.num_of w (query_num req) = Exn e ->
        Server.get_note_top_outline env w req s = (Exn e, s))
  /\ (forall query e,
        Server.query_of w (body_query req) = Val query ->
        Server.num_of w (body_num req) = Exn e ->
        Server.post_note_top_outline env w req s = (Exn e, s)).
Proof.
  split; [|split; [|split]].
  - unfold Server.num_of, number_or_ten.
    destruct v as [x|]; [|apply clamp_within].
    destruct (truthy (Some x)); [|apply clamp_within].
    destruct x as [| b | n | t | items | props]; cbn [js_Number].
    + apply clamp_within.
    + destruct b; apply clamp_within.
    + apply clamp_within.
    + apply clamp_within.
    + destruct (object_to_number w (JArr items)); [apply clamp_within | exact I].
    + destruct (object_to_number w (JObj props)); [apply clamp_within | exact I].
  - unfold Server.num_of, number_or_ten. destruct v as [x|]; [|reflexivity].
    destruct (truthy (Some x)); [exact I | reflexivity].
  - intros query e Hq Hn. unfold Server.get_note_top_outline, bind, lift.
    now rewrite Hq, Hn.
  - intros query e Hq Hn. unfold Server.post_note_top_outline, bind, lift.
    now rewrite Hq, Hn.
Qed.

(** A [num] that is an object without primitive conversion makes both routes
    throw. *)
Lemma route_count_is_within_bounds_witness :
  Server.get_note_top_outline sample_env strict_world odd_num_request st0
  = (Exn (lit "Cannot convert object to primitive value"), st0)
  /\ Server.post_note_top_outline sample_env strict_world odd_num_request st0
     = (Exn (lit "Cannot convert object to primitive value"), st0).
Proof.
  destruct (route_count_is_within_bounds sample_env strict_world odd_num_request st0 None)
    as (_ & _ & G & P).
  split.
  - apply (G [] (lit "Cannot convert object to primitive value")); reflexivity.
  - apply (P [] (lit "Cannot convert object to primitive value")); reflexivity.
Defined.

(** ** The loop of lines 288-303 *)

Lemma post_only_extractHeadings_rejected (w : World) (u : jsstring) (s : St)
    (e : jsstring) :
  net w (fetches s) (Page u) None = Exn e ->
  ServerPostOnly.extractHeadings w u s = (Exn e, after_fetch s (Page u) None).
Proof.
  intros H. unfold ServerPostOnly.extractHeadings, bind, fetch. now rewrite H.
Qed.

Lemma post_only_extract_each_cons (w : World) (it : SearchResult json)
    (rest : list (SearchResult json)) (results : list (OutlineRecord json)) (s : St) :
  ServerPostOnly.extract_each w (it :: rest) results s =
  match ServerPostOnly.extractHeadings w (url it) s with
  | (Val ex, s1) =>
      ServerPostOnly.extract_each w rest
        (results ++ [{| item := it; extracted := ex;
                        fetched_at := toISOString (date_now w (reads s1)) |}])
        (after_sleep (after_read s1) 500)
  | (Exn e, s1) => (Exn e, s1)
  end.
Proof.
  cbn [ServerPostOnly.extract_each]. unfold bind at 1.
  destruct (ServerPostOnly.extractHeadings w (url it) s) as [[ex|e] s1]; reflexivity.
Qed.

(** The loop over a list of entries is the loop over its first part followed
    by the loop over the rest, unless the first part throws. *)
Lemma post_only_extract_each_app (w : World) (before after : list (SearchResult json)) :
  forall (results : list (OutlineRecord json)) (s : St),
    ServerPostOnly.extract_each w (before ++ after) results s =
    match ServerPostOnly.extract_each w before results s with
    | (Val results1, s1) => ServerPostOnly.extract_each w after results1 s1
    | (Exn e, s1) => (Exn e, s1)
    end.
Proof.
  induction before as [|it rest IH]; intros results s; [reflexivity|].
  rewrite <- app_comm_cons, !post_only_extract_each_cons.
  destruct (ServerPostOnly.extractHeadings w (url it) s) as [[ex|e] s1]; [|reflexivity].
  apply IH.
Qed.

(** In the revision of lines 215-356 the first page whose fetch rejects ends
    the loop: the rejection is thrown on, the records built so far are lost
    and no later page is fetched. *)
Theorem post_only_loop_stops_at_failure (w : World)
    (before after : list (SearchResult json)) (it : SearchResult json)
    (results results1 : list (OutlineRecord json)) (s s1 : St) (e : jsstring) :
  ServerPostOnly.extract_each w before results s = (Val results1, s1) ->
  net w (fetches s1) (Page (url it)) None = Exn e ->
  ServerPostOnly.extract_each w (before ++ it :: after) results s
  = (Exn e, after_fetch s1 (Page (url it)) None).
Proof.
  intros Hbefore Hnet.
  rewrite post_only_extract_each_app, Hbefore, post_only_extract_each_cons.
  now rewrite (post_only_extractHeadings_rejected w (url it) s1 Hnet).
Qed.

(** The second of three pages cannot be fetched: the third is never asked
    for. *)
Lemma post_only_loop_stops_at_failure_witness :
  exists s1,
    ServerPostOnly.extract_each sample_world
      ([result_at "https://note.com/b/n/n2" 1]
       ++ result_at "https://note.com/a/n/n1" 2
          :: [result_at "https://note.com/c/n/n3" 3]) [] st0
    = (Exn (lit "fetch failed"),
       after_fetch s1 (Page (lit "https://note.com/a/n/n1")) None)
    /\ log s1 = [Fetched (Page (lit "https://note.com/b/n/n2")) None; Slept 500].
Proof.
  destruct (ServerPostOnly.extract_each sample_world
              [result_at "https://note.com/b/n/n2" 1] [] st0)
    as [[results1|e] s1] eqn:Hbefore; [|vm_compute in Hbefore; discriminate].
  exists s1. split.
  - apply (post_only_loop_stops_at_failure sample_world
             [result_at "https://note.com/b/n/n2" 1]
             [result_at "https://note.com/c/n/n3" 3]
             (result_at "https://note.com/a/n/n1" 2) [] st0 Hbefore).
    reflexivity.
  - vm_compute in Hbefore. injection Hbefore as _ <-. reflexivity.
Defined.

(** In the handler of lines 245-309, once the query and the count have been
    read off the body and the query is not empty, a search response that is
    not 2xx and whose body can be read is answered 502 with the first 500
    units of the body as detail and without the upstream status; nothing is
    fetched after the search call. *)
Theorem post_only_upstream_failure_is_502 (env : Env) (w : World) (req : Request)
    (query : jsstring) (numRaw : jsnum) (s : St) (resp : HttpResponse) (t : jsstring) :
  ServerPostOnly.requireAuth env req = Authorized ->
  ServerPostOnly.unset (ServerPostOnly.SERPAPI_KEY env) = false ->
  ServerPostOnly.query_of w (body_query req) = Val query ->
  ServerPostOnly.num_of w (body_num req) = Val numRaw ->
  is_empty query = false ->
  net w (fetches s) (post_only_target env query numRaw) None = Val resp ->
  ok resp = false ->
  http_body resp = Val t ->
  ServerPostOnly.post_note_top_outline env w req s
  = (Val {| status := 502;
            body := ErrorBody (lit "SERP API failed") None (Some (firstn 500 t)) |},
     after_fetch s (post_only_target env query numRaw) None).
Proof.
  intros Hauth Hkey Hquery Hnum Hq Hnet Hok Hbody.
  rewrite post_only_unfold, Hauth, Hkey, Hquery, Hnum, Hq. cbv zeta.
  now rewrite Hnet, Hok, Hbody.
Qed.

Lemma post_only_upstream_failure_is_502_witness :
  ServerPostOnly.post_note_top_outline sample_env
    (world_of (Val unavailable) (Val JNull)) sample_request st0
  = (Val {| status := 502;
            body := ErrorBody (lit "SERP API failed") None
                      (Some (lit "upstream unavailable")) |},
     after_fetch st0 (post_only_target sample_env (lit "productivity tips") (num 3))
       None).
Proof.
  apply (post_only_upstream_failure_is_502 sample_env
           (world_of (Val unavailable) (Val JNull)) sample_request
           (query := lit "productivity tips") (numRaw := num 3) st0
           (resp := unavailable) (t := lit "upstream unavailable"));
    reflexivity.
Defined.

(** ** The loop of lines 137-151 *)

(** The loop never stops early and never mixes entries up: it returns one
    record per entry, in order, each holding its entry and the extract of
    that entry's own page (the all-empty extract when that page failed), and
    it makes exactly one fetch and one reading of the clock per entry. *)
Theorem loop_pairs_each_entry_with_its_page (w : World)
    (top : list (SearchResult jsstring)) :
  forall (results : list (OutlineRecord jsstring)) (s : St),
  exists added s',
    Server.extract_each w top results s = (Val (results ++ added), s')
    /\ map (@item jsstring) added = top
    /\ map (@extracted jsstring) added = extracts_from w (fetches s) top
    /\ fetches s' = fetches s + List.length top
    /\ reads s' = reads s + List.length top.
Proof.
  induction top as [|it rest IH]; intros results s.
  - exists [], s. simpl. rewrite app_nil_r. repeat split; lia.
  - cbn [Server.extract_each]. unfold bind at 1. rewrite extractHeadings_run.
    unfold bind at 1. unfold now_iso at 1. unfold bind at 1. unfold sleep at 1.
    set (ex := settled w _). set (s1 := after_sleep _ _).
    destruct (IH (results ++ [{| item := it; extracted := ex;
                                  fetched_at := toISOString (date_now w (reads s)) |}]) s1)
      as [added [s' [Hrun [Hitems [Hex [Hf Hr]]]]]].
    exists ({| item := it; extracted := ex; fetched_at := toISOString (date_now w (reads s)) |} :: added), s'.
    split; [|split; [|split; [|split]]].
    + change (reads (after_fetch s (Page (url it)) (Some 20000%N))) with (reads s).
      rewrite Hrun. now rewrite <- app_assoc.
    + simpl. now rewrite Hitems.
    + simpl. rewrite Hex. reflexivity.
    + rewrite Hf. simpl. lia.
    + rewrite Hr. simpl. lia.
Qed.
